(** * askenzo_api: a shallow embedding of the request pipeline

    The development follows the layout of the repository: one module per
    source file ([exception], [schemas], [models], [crud], [encryption],
    [authentication_data], and the routers [tourist_api], [host_api],
    [experiences_api], [discovery_api]).  Python values are modelled as
    follows: [int] as [Z], [str] as [string], [list] as [list], [None] as
    the [None] of an [option], a raised exception as the [Raise] branch of
    [result].  A database session is the explicit state [Database], threaded
    through every operation that commits.  The store is taken to be
    reachable: the storage errors that occur are the ones a request can
    provoke, namely a duplicate key, a geometry text that does not parse,
    and a negative OFFSET or LIMIT. *)

From Stdlib Require Import ZArith String Ascii Lia.
From stdpp Require Import base option list sorting gmap strings pretty.

Local Open Scope string_scope.
Local Open Scope Z_scope.

(* ===================================================================== *)
(** * Python runtime: exceptions, results, truthiness, slicing           *)
(* ===================================================================== *)

Module Py.

(** The exceptions the modelled code raises or lets through. *)
Inductive exn : Type :=
| HTTPException (status_code : Z) (detail : string)
| RequestValidationError (loc : string)
| TypeError (msg : string)
| SQLAlchemyError (msg : string).

(** A computation either returns a value or raises. *)
Inductive result (A : Type) : Type :=
| Ok (a : A)
| Raise (e : exn).
Arguments Ok {A} a.
Arguments Raise {A} e.

(** Sequencing: an exception raised by the first step propagates. *)
#[global] Instance result_ret : MRet result := fun A a => Ok a.
#[global] Instance result_bind : MBind result := fun A B k m =>
  match m with
  | Ok a => k a
  | Raise e => Raise e
  end.

(** [bool(x)] for the value shapes that occur in the routers. *)
Definition truthy_str (s : string) : bool :=
  match s with EmptyString => false | _ => true end.
Definition truthy_int (z : Z) : bool := negb (z =? 0).
Definition truthy_list {A} (l : list A) : bool :=
  match l with [] => false | _ => true end.
Definition truthy_opt {A} (t : A -> bool) (o : option A) : bool :=
  match o with None => false | Some a => t a end.

(** [l[:n]] for a Python int [n]: a negative bound counts from the end. *)
Definition slice_to {A} (l : list A) (n : Z) : list A :=
  if 0 <=? n then take (Z.to_nat n) l
  else take (Z.to_nat (Z.of_nat (length l) + n)) l.

(** [l[-1]] on a non-empty list. *)
Definition last_item {A} (l : list A) : option A := last l.

(** [len(l) > n]. *)
Definition len_gt {A} (l : list A) (n : Z) : bool := n <? Z.of_nat (length l).

End Py.
Export Py.

(* ===================================================================== *)
(** * Library functions the routers call: binascii and re                 *)
(* ===================================================================== *)

Module binascii.

Definition hex_digit (c : ascii) : option N :=
  let n := N_of_ascii c in
  if ((48 <=? n) && (n <=? 57))%N then Some (n - 48)%N
  else if ((97 <=? n) && (n <=? 102))%N then Some (n - 87)%N
  else if ((65 <=? n) && (n <=? 70))%N then Some (n - 55)%N
  else None.

Definition byte_of_nibbles (hi lo : N) : Byte.byte :=
  match Byte.of_N (16 * hi + lo) with
  | Some b => b
  | None => Byte.x00
  end.

(** [unhexlify]: [None] stands for the raised [binascii.Error] (an odd
    number of digits, or a character that is not a hex digit). *)
Fixpoint unhexlify (s : string) : option (list Byte.byte) :=
  match s with
  | EmptyString => Some []
  | String _ EmptyString => None
  | String a (String b rest) =>
      match hex_digit a, hex_digit b, unhexlify rest with
      | Some hi, Some lo, Some bs => Some (byte_of_nibbles hi lo :: bs)
      | _, _, _ => None
      end
  end.

End binascii.

Module re.

Definition open_paren : ascii := "("%char.
Definition close_paren : ascii := ")"%char.

(** The longest prefix without a closing parenthesis, and what follows. *)
Fixpoint span_group (s : string) : string * string :=
  match s with
  | EmptyString => (EmptyString, EmptyString)
  | String c rest =>
      if Ascii.eqb c close_paren then (EmptyString, s)
      else let '(g, tl) := span_group rest in (String c g, tl)
  end.

(** [re.search(r"\(([^)]+)\)", s)], reduced to its group 1: the leftmost
    position holding an opening parenthesis that is followed by a non-empty
    run of characters other than the closing one and then by a closing
    parenthesis.  The run is greedy, and only the whole run can be followed
    by a closing parenthesis. *)
Fixpoint search_group (s : string) : option string :=
  match s with
  | EmptyString => None
  | String c rest =>
      if Ascii.eqb c open_paren then
        match span_group rest with
        | (String g0 g, String _ _) => Some (String g0 g)
        | _ => search_group rest
        end
      else search_group rest
  end.

End re.

(** Status categories of the error taxonomy, read off an exception. *)
Definition is_NotFound (e : exn) : Prop :=
  match e with HTTPException 404 _ => True | _ => False end.
Definition is_Unauthorized (e : exn) : Prop :=
  match e with HTTPException 401 _ => True | _ => False end.
Definition is_InvalidInput (e : exn) : Prop :=
  match e with HTTPException 400 _ => True | _ => False end.
Definition is_AccountDeactivated (e : exn) : Prop :=
  e = HTTPException 401 "This user has been deactivated.".

(* ===================================================================== *)
(** * External collaborators                                              *)
(* ===================================================================== *)

(** The claims of a bearer credential, as the routers read them:
    [payload_token["role"]] and [payload_token["user_id"]]. *)
Record Payload := { role : string; user_id : Z }.

(** [api_routers.admin_api] (imported as [log]) is not part of the sources
    at hand; its two functions are taken as parameters.  [is_jwt_valid]
    may raise, return a payload, or return a falsy value. *)
Class Jwt := {
  is_jwt_valid : string -> result (option Payload);
  create_jwt : Payload -> string }.

(** The [bcrypt] package. *)
Class Bcrypt := {
  hashpw : string -> string -> string;
  checkpw : string -> string -> bool }.

(** The [shapely] package: [loads] on bytes, emptiness (the truth value of
    a geometry) and the [wkt] rendering. *)
Class Shapely := {
  geometry : Type;
  loads : list Byte.byte -> option geometry;
  is_empty : geometry -> bool;
  wkt : geometry -> string }.

(** Python floats with true division by an int. *)
Class PyFloat := {
  float : Type;
  truediv : float -> Z -> float }.

(** The geography functions of the store.  [ST_GeomFromText] yields the hex
    rendering of the stored value, or nothing when the text does not parse. *)
Class PostGIS `{PyFloat} := {
  ST_GeomFromText : string -> option string;
  ST_Distance : string -> string -> float }.

(* ===================================================================== *)
(** * schemas.py and models.py: the entities                              *)
(* ===================================================================== *)

(** A geometry attribute of an ORM object: what was loaded from the store
    (a [WKBElement], carried as its hex text) or a string the code assigned
    and that has not been flushed yet. *)
Inductive geom_attr : Type :=
| WKBElement (desc : string)
| GeomText (text : string).

(** The text a geometry attribute carries ([str] of the attribute). *)
Definition geom_desc (g : geom_attr) : string :=
  match g with WKBElement desc => desc | GeomText text => text end.

Module models.

Record TouristUser := {
  tu_id : Z; tu_name : string; tu_surname : string; tu_email : string;
  tu_img_profile : string; tu_state_id : Z; tu_telephone : string;
  tu_password : string }.

Record HostUser := {
  hu_id : Z; hu_name : string; hu_email : string; hu_img_profile : string;
  hu_state_id : Z; hu_password : string }.

Record Experiences := {
  ex_id : Z; ex_title : string; ex_description : string;
  ex_difficulty_id : Z; ex_price : list (string * Z);
  ex_duration : Z * Z * Z; ex_img_preview_path : string;
  ex_img_paths : list string; ex_state_id : Z }.

Record Discovery := {
  di_id : Z; di_title : string; di_description : string;
  di_img_preview_path : string; di_img_paths : list string;
  di_video_paths : list string; di_coordinate_gps : geom_attr;
  di_address : string; di_kind_id : Z; di_state_id : Z }.

Record TouristUserLikes := {
  tourist_user_id : Z; experience_id : Z }.

End models.

Module schemas.

Record TouristUserCreate := {
  name : string; surname : string; email : string; img_profile : string;
  state_id : Z; telephone : string; password : string }.

Record TouristUser := { tourist_id : Z; tourist_data : TouristUserCreate }.

Record HostUserCreate := {
  h_name : string; h_email : string; h_img_profile : string;
  h_state_id : Z; h_password : string }.

Record HostUser := { host_id : Z; host_data : HostUserCreate }.

Record ExperienceBase := {
  e_title : string; e_description : string; e_difficulty_id : Z;
  e_price : list (string * Z); e_duration : Z * Z * Z;
  e_img_preview_path : string; e_img_paths : list string; e_state_id : Z }.

Record Experience := { e_id : Z; e_base : ExperienceBase }.

Record ExperienceResponse := {
  er_cursor : option Z; er_has_more : bool; er_items : list Experience }.

Record DiscoveryBase := {
  d_title : string; d_description : string; d_img_preview_path : string;
  d_img_paths : list string; d_video_paths : list string;
  d_coordinate_gps : option string; d_address : string;
  d_kind_id : Z; d_state_id : Z }.

(** [Discovery] narrows [coordinate_gps] to a plain [str]. *)
Record Discovery := {
  r_id : Z; r_title : string; r_description : string;
  r_img_preview_path : string; r_img_paths : list string;
  r_video_paths : list string; r_coordinate_gps : string;
  r_address : string; r_kind_id : Z; r_state_id : Z }.

Record DiscoveryResponse := {
  dr_cursor : option Z; dr_has_more : bool; dr_items : list Discovery }.

(** [Experience.from_orm]. *)
Definition Experience_from_orm (x : models.Experiences) : Experience :=
  {| e_id := models.ex_id x;
     e_base := {| e_title := models.ex_title x;
                  e_description := models.ex_description x;
                  e_difficulty_id := models.ex_difficulty_id x;
                  e_price := models.ex_price x;
                  e_duration := models.ex_duration x;
                  e_img_preview_path := models.ex_img_preview_path x;
                  e_img_paths := models.ex_img_paths x;
                  e_state_id := models.ex_state_id x |} |}.

Section shapely.
Context `{Shapely}.

(** [ewkb_to_wkt]: every exception of the body is caught and printed, and
    the function then falls off its end, as it does when the geometry is
    falsy (empty): the caller receives [None]. *)
Definition ewkb_to_wkt (geom_hex : string) : option string :=
  match binascii.unhexlify geom_hex with
  | None => None
  | Some geom_bytes =>
      match loads geom_bytes with
      | None => None
      | Some a => if negb (is_empty a) then Some (wkt a) else None
      end
  end.

End shapely.

End schemas.

(* ===================================================================== *)
(** * utility/encryption.py                                               *)
(* ===================================================================== *)

Module encryption.
Section bcrypt.
Context `{Bcrypt}.

(** [salt] is the value [bcrypt.gensalt()] returned for this call. *)
Definition hash_password (salt password : string) : string :=
  hashpw password salt.

Definition check_password (input_password hashed_password_string : string)
  : bool :=
  checkpw input_password hashed_password_string.

End bcrypt.
End encryption.

(* ===================================================================== *)
(** * The store                                                           *)
(* ===================================================================== *)

Record Database := {
  tourist_users : list models.TouristUser;
  host_users : list models.HostUser;
  experiences : list models.Experiences;
  discoveries : list models.Discovery;
  tourist_user_likes : list models.TouristUserLikes }.

Definition empty_db : Database :=
  {| tourist_users := []; host_users := []; experiences := [];
     discoveries := []; tourist_user_likes := [] |}.

Definition set_tourist_users (db : Database) l : Database :=
  {| tourist_users := l; host_users := host_users db;
     experiences := experiences db; discoveries := discoveries db;
     tourist_user_likes := tourist_user_likes db |}.

Definition set_experiences (db : Database) l : Database :=
  {| tourist_users := tourist_users db; host_users := host_users db;
     experiences := l; discoveries := discoveries db;
     tourist_user_likes := tourist_user_likes db |}.

Definition set_discoveries (db : Database) l : Database :=
  {| tourist_users := tourist_users db; host_users := host_users db;
     experiences := experiences db; discoveries := l;
     tourist_user_likes := tourist_user_likes db |}.

Definition set_tourist_user_likes (db : Database) l : Database :=
  {| tourist_users := tourist_users db; host_users := host_users db;
     experiences := experiences db; discoveries := discoveries db;
     tourist_user_likes := l |}.

(** The identity of a new row is the store's choice: the create operations
    take it as [assigned_id], the value the id sequence hands out for the
    insert.  A value some row already carries violates the primary key. *)
Definition key_in_use {A} (key : A -> Z) (i : Z) (rows : list A) : bool :=
  existsb (fun r => key r =? i) rows.

(** The store keeps OFFSET and LIMIT as 64-bit integers. *)
Definition bigint_max : Z := 2 ^ 63 - 1.
Definition in_bigint (n : Z) : bool := n <=? bigint_max.

(** [ORDER BY key]. *)
Definition key_le {A} (key : A -> Z) (a b : A) : Prop := key a <= key b.

#[global] Instance key_le_dec {A} (key : A -> Z) : RelDecision (key_le key).
Proof. intros a b. unfold key_le. apply _. Defined.

Definition order_by {A} (key : A -> Z) (rows : list A) : list A :=
  merge_sort (key_le key) rows.

(** [OFFSET n] and [LIMIT n] for a bound the store can represent
    ([in_bigint]); the store rejects a negative bound. *)
Definition sql_offset {A} (n : Z) (rows : list A) : result (list A) :=
  if n <? 0 then Raise (SQLAlchemyError "OFFSET must not be negative")
  else Ok (drop (Z.to_nat n) rows).

Definition sql_limit {A} (n : Z) (rows : list A) : result (list A) :=
  if n <? 0 then Raise (SQLAlchemyError "LIMIT must not be negative")
  else Ok (take (Z.to_nat n) rows).

#[global] Instance like_eq_dec : EqDecision models.TouristUserLikes.
Proof. solve_decision. Defined.

(* ===================================================================== *)
(** * exception.py                                                        *)
(* ===================================================================== *)

Module exception.

(** The two storage errors the model distinguishes. *)
Inductive storage_error :=
| IntegrityError_duplicate
| DataError (msg : string).

(** [CustomExceptionsClass(db, e).handle()]: the session is rolled back
    by the caller keeping the old [Database]; a duplicate key becomes a
    400, anything else is raised again. *)
Definition handle (e : storage_error) : exn :=
  match e with
  | IntegrityError_duplicate =>
      HTTPException 400
        "Value already registered. (Value can be an email a title or a popup message text)."
  | DataError msg => SQLAlchemyError msg
  end.

End exception.

(* ===================================================================== *)
(** * crud.py                                                             *)
(* ===================================================================== *)

(** Objects of the session that the caller changed in place and that the
  next commit flushes ([crud.update(db)] after attribute assignments). *)
Inductive dirty_object :=
| DirtyDiscovery (d : models.Discovery)
| DirtyExperience (e : models.Experiences).

Module crud.
Import models exception.

Definition with_tu_id (i : Z) (u : TouristUser) : TouristUser :=
  {| tu_id := i; tu_name := tu_name u; tu_surname := tu_surname u;
     tu_email := tu_email u; tu_img_profile := tu_img_profile u;
     tu_state_id := tu_state_id u; tu_telephone := tu_telephone u;
     tu_password := tu_password u |}.

Definition with_ex_id (i : Z) (e : Experiences) : Experiences :=
  {| ex_id := i; ex_title := ex_title e; ex_description := ex_description e;
     ex_difficulty_id := ex_difficulty_id e; ex_price := ex_price e;
     ex_duration := ex_duration e;
     ex_img_preview_path := ex_img_preview_path e;
     ex_img_paths := ex_img_paths e; ex_state_id := ex_state_id e |}.

Definition with_di_id_geom (i : Z) (g : geom_attr) (d : Discovery)
  : Discovery :=
  {| di_id := i; di_title := di_title d; di_description := di_description d;
     di_img_preview_path := di_img_preview_path d;
     di_img_paths := di_img_paths d; di_video_paths := di_video_paths d;
     di_coordinate_gps := g; di_address := di_address d;
     di_kind_id := di_kind_id d; di_state_id := di_state_id d |}.

(** Replace the row carrying the same primary key; insert when there is
    none ([Session.merge] followed by a commit). *)
Fixpoint merge_row {A} (key : A -> Z) (x : A) (rows : list A) : list A :=
  match rows with
  | [] => [x]
  | r :: rest =>
      if key r =? key x then x :: rest else r :: merge_row key x rest
  end.

(** Modelled from the spec: the reflected schema is not in the sources;
    its uniqueness constraint on the email of a user table is the one the
    data model states.  [true] when another row already holds [email]. *)
Definition email_taken (self : Z) (email : string)
    (rows : list TouristUser) : bool :=
  existsb (fun r => String.eqb (tu_email r) email && negb (tu_id r =? self))
          rows.

(** ** Tourists *)

Definition get_tourist_user (db : Database) (user_id : Z)
  : option TouristUser :=
  List.find (fun u => tu_id u =? user_id) (tourist_users db).

Definition get_tourist_user_by_email (db : Database) (email : string)
  : option TouristUser :=
  List.find (fun u => String.eqb (tu_email u) email) (tourist_users db).

Definition create_tourist_user (db : Database) (assigned_id : Z)
    (tourist_user : TouristUser) : result (bool * Database) :=
  if key_in_use tu_id assigned_id (tourist_users db)
     || email_taken assigned_id (tu_email tourist_user) (tourist_users db)
  then Raise (handle IntegrityError_duplicate)
  else Ok (true, set_tourist_users db
                   (tourist_users db
                    ++ [with_tu_id assigned_id tourist_user])).

(** [update(db, tourist_user=...)]: merge, commit, refresh. *)
Definition update (db : Database) (tourist_user : option TouristUser)
  : result (bool * Database) :=
  match tourist_user with
  | Some u =>
      if email_taken (tu_id u) (tu_email u) (tourist_users db)
      then Raise (handle IntegrityError_duplicate)
      else Ok (true, set_tourist_users db
                       (merge_row tu_id u (tourist_users db)))
  | None => Ok (true, db)
  end.

(** ** Hosts *)

Definition get_host_user (db : Database) (user_id : Z) : option HostUser :=
  List.find (fun u => hu_id u =? user_id) (host_users db).

(** ** Experiences *)

Definition get_experience (db : Database) (experience_id : Z)
  : option Experiences :=
  List.find (fun e => ex_id e =? experience_id) (experiences db).

Definition get_experiences (db : Database) (cursor : option Z) (limit : Z)
  : result (list Experiences) :=
  let q := order_by ex_id
             (filter (fun e => ex_state_id e = 1) (experiences db)) in
  match cursor with
  | None => sql_limit (limit + 1) q
  | Some c => rows ← sql_offset c q; sql_limit (limit + 1) rows
  end.

Definition create_experience (db : Database) (assigned_id : Z)
    (new_experience : Experiences) : result (bool * Database) :=
  if key_in_use ex_id assigned_id (experiences db)
  then Raise (handle IntegrityError_duplicate)
  else Ok (true, set_experiences db
                   (experiences db
                    ++ [with_ex_id assigned_id new_experience])).

(** ** Likes *)

Definition get_like (db : Database) (user_id experience_id : Z)
  : option TouristUserLikes :=
  List.find (fun l => (tourist_user_id l =? user_id)
                      && (models.experience_id l =? experience_id))
            (tourist_user_likes db).

Definition get_likes (db : Database) (user_id : Z) : list Z :=
  map models.experience_id
      (filter (fun l => tourist_user_id l = user_id)
              (tourist_user_likes db)).

(** Modelled from the spec: a Like is identified by its (tourist,
    experience) pair, so the store refuses a second row for a pair and a
    delete removes the row of that pair. *)
Definition create_like (db : Database) (new_like : TouristUserLikes)
  : result (bool * Database) :=
  if bool_decide (new_like ∈ tourist_user_likes db)
  then Raise (handle IntegrityError_duplicate)
  else Ok (true, set_tourist_user_likes db
                   (tourist_user_likes db ++ [new_like])).

Definition delete_like (db : Database) (like_to_remove : TouristUserLikes)
  : result (bool * Database) :=
  Ok (true, set_tourist_user_likes db
              (filter (fun l => l ≠ like_to_remove)
                      (tourist_user_likes db))).

(** ** Rows removed and rewritten by key *)

(** [db.delete(discovery_to_remove)] and the commit: the row with the
    primary key of the object goes. *)
Definition delete_discovery (db : Database) (discovery_to_remove : Discovery)
  : result (bool * Database) :=
  Ok (true, set_discoveries db
              (filter (fun d => di_id d ≠ di_id discovery_to_remove)
                      (discoveries db))).

(** [db_tourist_user.password = p] on a loaded tourist. *)
Definition with_tu_password (p : string) (u : TouristUser) : TouristUser :=
  {| tu_id := tu_id u; tu_name := tu_name u; tu_surname := tu_surname u;
     tu_email := tu_email u; tu_img_profile := tu_img_profile u;
     tu_state_id := tu_state_id u; tu_telephone := tu_telephone u;
     tu_password := p |}.

(** ** The tables with a geography *)

Section geo.
Context `{PostGIS}.

(** What the store keeps for a geometry attribute at flush time. *)
Definition flush_geom (g : geom_attr) : storage_error + geom_attr :=
  match g with
  | WKBElement desc => inr (WKBElement desc)
  | GeomText text =>
      match ST_GeomFromText text with
      | Some desc => inr (WKBElement desc)
      | None => inl (DataError "parse error - invalid geometry")
      end
  end.

Definition flush (db : Database) (o : dirty_object)
  : storage_error + Database :=
  match o with
  | DirtyDiscovery d =>
      match flush_geom (di_coordinate_gps d) with
      | inl e => inl e
      | inr g =>
          inr (set_discoveries db
                 (merge_row di_id (with_di_id_geom (di_id d) g d)
                            (discoveries db)))
      end
  | DirtyExperience e =>
      inr (set_experiences db (merge_row ex_id e (experiences db)))
  end.

(** [update(db)] after the caller changed a loaded object in place: the
    commit flushes that object. *)
Definition update_dirty (db : Database) (o : dirty_object)
  : result (bool * Database) :=
  match flush db o with
  | inl e => Raise (handle e)
  | inr db' => Ok (true, db')
  end.

(** ** Discoveries *)

Definition get_discovery (db : Database) (discovery_id : Z)
  : option Discovery :=
  List.find (fun d => di_id d =? discovery_id) (discoveries db).

Definition get_discoveries (db : Database) (cursor : option Z) (limit : Z)
    (category : Z) (all : bool) : result (list Discovery) :=
  let list_category := if negb all then [category] else [1; 2; 3; 4] in
  let q := order_by di_id
             (filter (fun d => di_state_id d = 1
                               ∧ di_kind_id d ∈ list_category)
                     (discoveries db)) in
  match cursor with
  | None => sql_limit (limit + 1) q
  | Some c => rows ← sql_offset c q; sql_limit (limit + 1) rows
  end.

Definition create_discovery (db : Database) (assigned_id : Z)
    (new_discovery : Discovery) : result (bool * Database) :=
  match flush_geom (di_coordinate_gps new_discovery) with
  | inl e => Raise (handle e)
  | inr g =>
      if key_in_use di_id assigned_id (discoveries db)
      then Raise (handle IntegrityError_duplicate)
      else Ok (true, set_discoveries db
                       (discoveries db
                        ++ [with_di_id_geom assigned_id g new_discovery]))
  end.

Definition distance_from_discoveries (db : Database) (my_position : string)
  : result (list (Z * float)) :=
  match ST_GeomFromText my_position with
  | None => Raise (handle (DataError "parse error - invalid geometry"))
  | Some origin =>
      Ok (map (fun d => (di_id d,
                         ST_Distance (geom_desc (di_coordinate_gps d))
                                     origin))
              (discoveries db))
  end.

End geo.
End crud.


(* ===================================================================== *)
(** * utility/authentication_data.py                                      *)
(* ===================================================================== *)

Module authentication_data.
Section auth.
Context `{Jwt}.

(** [Authentication.roles], read by position. *)
Definition roles : list string := ["Admin"; "Host"; "Tourist"].
Definition roles_at (i : nat) : string := nth i roles "".

Definition unauthorized_user : exn := HTTPException 401 "Unauthorized user.".
Definition incorrect_token : exn := HTTPException 401 "Incorrect token".

Definition get_tourist_host_priviledge (token : string) : result bool :=
  payload_token ← is_jwt_valid token;
  match payload_token with
  | Some p =>
      if String.eqb (role p) (roles_at 1) || String.eqb (role p) (roles_at 2)
      then Ok true
      else Raise unauthorized_user
  | None => Raise incorrect_token
  end.

Definition get_admin_priviledge (token : string) : result bool :=
  payload_token ← is_jwt_valid token;
  match payload_token with
  | Some p =>
      if String.eqb (role p) (roles_at 0)
      then Ok true
      else Raise unauthorized_user
  | None => Raise incorrect_token
  end.

Definition get_tourist_host_admin_priviledge (token : string)
  : result string :=
  payload_token ← is_jwt_valid token;
  match payload_token with
  | Some p =>
      if String.eqb (role p) (roles_at 0) || String.eqb (role p) (roles_at 1)
         || String.eqb (role p) (roles_at 2)
      then Ok (role p)
      else Raise unauthorized_user
  | None => Raise incorrect_token
  end.

End auth.
End authentication_data.

(* ===================================================================== *)
(** * api_routers/tourist_api.py                                          *)
(* ===================================================================== *)

(** The body of a sign-in response. *)
Record Token := { access_token : string; token_type : string }.

(** What [update_my_password] of a tourist puts under ["result"]: a notice
    when both passwords are the same text, else the value of [crud.update]. *)
Inductive password_update :=
| Identical (notice : string)
| Updated (ok : bool).

Module tourist_api.
Import authentication_data.

Definition to_schema (u : models.TouristUser) : schemas.TouristUser :=
  {| schemas.tourist_id := models.tu_id u;
     schemas.tourist_data :=
       {| schemas.name := models.tu_name u;
          schemas.surname := models.tu_surname u;
          schemas.email := models.tu_email u;
          schemas.img_profile := models.tu_img_profile u;
          schemas.state_id := models.tu_state_id u;
          schemas.telephone := models.tu_telephone u;
          schemas.password := models.tu_password u |} |}.

Section with_jwt.
Context `{Jwt}.

Definition get_current_tourist (token : string) (db : Database)
  : result schemas.TouristUser :=
  payload_token ← is_jwt_valid token;
  match payload_token with
  | Some p =>
      if String.eqb (role p) (roles_at 2) then
        let tourist_id := user_id p in
        match crud.get_tourist_user db tourist_id with
        | None => Raise (HTTPException 404 "Tourist not found")
        | Some db_tourist_user =>
            let tourist_user := to_schema db_tourist_user in
            if models.tu_state_id db_tourist_user =? 1
            then Ok tourist_user
            else Raise (HTTPException 401 "This user has been deactivated.")
        end
      else Raise unauthorized_user
  | None => Raise incorrect_token
  end.

End with_jwt.

(** The in-place assignments of [update_my_info], field by field. *)
Definition merge_my_info (db_tourist_user : models.TouristUser)
    (new_name new_surname new_email new_img_profile : string)
    (new_state_id : option Z) (new_telephone : string)
  : models.TouristUser :=
  {| models.tu_id := models.tu_id db_tourist_user;
     models.tu_name :=
       if truthy_str new_name then new_name
       else models.tu_name db_tourist_user;
     models.tu_surname :=
       if truthy_str new_surname then new_surname
       else models.tu_surname db_tourist_user;
     models.tu_email :=
       if truthy_str new_email then new_email
       else models.tu_email db_tourist_user;
     models.tu_img_profile :=
       if truthy_str new_img_profile then new_img_profile
       else models.tu_img_profile db_tourist_user;
     models.tu_state_id :=
       match new_state_id with
       | Some s => if truthy_int s then s
                   else models.tu_state_id db_tourist_user
       | None => models.tu_state_id db_tourist_user
       end;
     models.tu_telephone :=
       if truthy_str new_telephone then new_telephone
       else models.tu_telephone db_tourist_user;
     models.tu_password := models.tu_password db_tourist_user |}.

(** [Query(None, ge=1, le=2)]. *)
Definition valid_new_state_id (new_state_id : option Z) : bool :=
  match new_state_id with
  | None => true
  | Some s => (1 <=? s) && (s <=? 2)
  end.

Definition update_my_info
    (new_name new_surname new_email new_img_profile : string)
    (new_state_id : option Z) (new_telephone : string)
    (tourist_user : schemas.TouristUser) (db : Database)
  : result (bool * Database) :=
  if negb (valid_new_state_id new_state_id)
  then Raise (RequestValidationError "new_state_id")
  else
    match crud.get_tourist_user db (schemas.tourist_id tourist_user) with
    | Some db_tourist_user =>
        crud.update db
          (Some (merge_my_info db_tourist_user new_name new_surname new_email
                               new_img_profile new_state_id new_telephone))
    | None => Raise (HTTPException 404 "Tourist not found")
    end.

Section with_bcrypt.
Context `{Bcrypt}.

Definition register_me (salt : string) (assigned_id : Z)
    (tourist_user : schemas.TouristUserCreate) (db : Database)
  : result (bool * Database) :=
  if (schemas.state_id tourist_user <? 0) || (2 <? schemas.state_id tourist_user)
  then Raise (HTTPException 400 "state_id must be either 1 or 2.")
  else
    let encrypted_password :=
      encryption.hash_password salt (schemas.password tourist_user) in
    let new_tourist_user :=
      {| models.tu_id := 0;
         models.tu_name := schemas.name tourist_user;
         models.tu_surname := schemas.surname tourist_user;
         models.tu_email := schemas.email tourist_user;
         models.tu_img_profile := schemas.img_profile tourist_user;
         models.tu_state_id := schemas.state_id tourist_user;
         models.tu_telephone := schemas.telephone tourist_user;
         models.tu_password := encrypted_password |} in
    crud.create_tourist_user db assigned_id new_tourist_user.

(** Returns the id, or falls off its end ([None]) on a wrong password. *)
Definition authenticate_tourist (email password : string) (db : Database)
  : result (option Z) :=
  match crud.get_tourist_user_by_email db email with
  | Some tourist =>
      if encryption.check_password password (models.tu_password tourist)
      then Ok (Some (models.tu_id tourist))
      else Ok None
  | None => Raise (HTTPException 404 "User doesn't exist-")
  end.

(** The password is checked against the hash carried by the identity that
    [get_current_tourist] resolved for the request. *)
Definition verify_my_password (input_password : string)
    (tourist_user : schemas.TouristUser) : bool :=
  encryption.check_password input_password
    (schemas.password (schemas.tourist_data tourist_user)).

Definition update_my_password (salt old_password new_password : string)
    (tourist_user : schemas.TouristUser) (db : Database)
  : result (password_update * Database) :=
  if String.eqb old_password new_password
  then Ok (Identical "Identical input passwords.", db)
  else if verify_my_password old_password tourist_user then
    let new_password_encrypted :=
      encryption.hash_password salt new_password in
    match crud.get_tourist_user db (schemas.tourist_id tourist_user) with
    | Some db_tourist_user =>
        '(ok, db') ← crud.update db
                       (Some (crud.with_tu_password new_password_encrypted
                                                    db_tourist_user));
        Ok (Updated ok, db')
    | None => Raise (HTTPException 404 "User not found on database")
    end
  else Raise (HTTPException 403 "Invalid Password.").

Context `{Jwt}.

Definition signin (email password : string) (db : Database) : result Token :=
  id ← authenticate_tourist email password db;
  match id with
  | Some i =>
      if truthy_int i then
        let token := create_jwt {| user_id := i; role := roles_at 2 |} in
        Ok {| access_token := token; token_type := "bearer" |}
      else Raise (HTTPException 401 "Incorrect username or password")
  | None => Raise (HTTPException 401 "Incorrect username or password")
  end.

End with_bcrypt.

(** The answer is the value under ["result"]; [None] is the function
    falling off its end when a crud call returns a falsy value. *)
Definition toggle_like (experience_id : Z) (db : Database)
    (me : schemas.TouristUser) : result (option bool * Database) :=
  match crud.get_experience db experience_id with
  | Some is_experience_existing =>
      match crud.get_like db (schemas.tourist_id me) experience_id with
      | Some already_liked =>
          '(deleted, db') ← crud.delete_like db already_liked;
          if deleted : bool then Ok (Some false, db') else Ok (None, db')
      | None =>
          let new_like :=
            {| models.tourist_user_id := schemas.tourist_id me;
               models.experience_id := experience_id |} in
          '(created, db') ← crud.create_like db new_like;
          if created : bool then Ok (Some true, db') else Ok (None, db')
      end
  | None => Raise (HTTPException 404 "Experience not found.")
  end.

(** The ids of the experiences the tourist likes, in stored order. *)
Definition get_my_likes_list (db : Database) (me : schemas.TouristUser)
  : list Z :=
  let user_tourist_likes := crud.get_likes db (schemas.tourist_id me) in
  if truthy_list user_tourist_likes then user_tourist_likes else [].

End tourist_api.

(* ===================================================================== *)
(** * api_routers/host_api.py                                             *)
(* ===================================================================== *)

Module host_api.
Import authentication_data.

Definition to_schema (u : models.HostUser) : schemas.HostUser :=
  {| schemas.host_id := models.hu_id u;
     schemas.host_data :=
       {| schemas.h_name := models.hu_name u;
          schemas.h_email := models.hu_email u;
          schemas.h_img_profile := models.hu_img_profile u;
          schemas.h_state_id := models.hu_state_id u;
          schemas.h_password := models.hu_password u |} |}.

Section with_jwt.
Context `{Jwt}.

Definition get_current_host (token : string) (db : Database)
  : result schemas.HostUser :=
  payload_token ← is_jwt_valid token;
  match payload_token with
  | Some p =>
      if String.eqb (role p) (roles_at 1) then
        let host_id := user_id p in
        match crud.get_host_user db host_id with
        | None => Raise (HTTPException 404 "Host not found")
        | Some db_host_user =>
            let host_user := to_schema db_host_user in
            if schemas.h_state_id (schemas.host_data host_user) =? 1
            then Ok host_user
            else Raise (HTTPException 401 "This user has been deactivated.")
        end
      else Raise unauthorized_user
  | None => Raise incorrect_token
  end.

End with_jwt.
End host_api.

(* ===================================================================== *)
(** * api_routers/experiences_api.py                                      *)
(* ===================================================================== *)

(** [Query(None, ge=0)] on an optional cursor and [Query(20, gt=0)] on the
    page size, as the list endpoints declare them. *)
Definition valid_cursor (cursor : option Z) : bool :=
  match cursor with None => true | Some c => 0 <=? c end.
Definition valid_limit (limit : Z) : bool := 0 <? limit.

Module experiences_api.

Definition get_experiences (cursor : option Z) (limit : Z) (db : Database)
  : result schemas.ExperienceResponse :=
  if negb (valid_cursor cursor) then Raise (RequestValidationError "cursor")
  else if negb (valid_limit limit) then Raise (RequestValidationError "limit")
  else
    experiences ← crud.get_experiences db cursor limit;
    if truthy_list experiences then
      let has_more := len_gt experiences limit in
      let experiences := slice_to experiences limit in
      Ok {| schemas.er_cursor :=
              if truthy_list experiences
              then models.ex_id <$> last_item experiences
              else None;
            schemas.er_has_more := has_more;
            schemas.er_items := map schemas.Experience_from_orm experiences |}
    else Raise (HTTPException 404 "No experiences found.").

Definition create (assigned_id : Z) (experience : schemas.ExperienceBase)
    (db : Database) : result (bool * Database) :=
  if (schemas.e_state_id experience <? 0) || (2 <? schemas.e_state_id experience)
  then Raise (HTTPException 400 "state_id must be either 1 or 2.")
  else
    let new_experience :=
      {| models.ex_id := 0;
         models.ex_title := schemas.e_title experience;
         models.ex_description := schemas.e_description experience;
         models.ex_difficulty_id := schemas.e_difficulty_id experience;
         models.ex_price := schemas.e_price experience;
         models.ex_duration := schemas.e_duration experience;
         models.ex_img_preview_path := schemas.e_img_preview_path experience;
         models.ex_img_paths := schemas.e_img_paths experience;
         models.ex_state_id := schemas.e_state_id experience |} in
    crud.create_experience db assigned_id new_experience.

(** [Query(..., gt=0)] on the id of a single read. *)
Definition valid_id (id : Z) : bool := 0 <? id.

Definition get_experience (id : Z) (db : Database)
  : result schemas.Experience :=
  if negb (valid_id id) then Raise (RequestValidationError "id")
  else
    match crud.get_experience db id with
    | Some experience =>
        Ok {| schemas.e_id := id;
              schemas.e_base :=
                {| schemas.e_title := models.ex_title experience;
                   schemas.e_description := models.ex_description experience;
                   schemas.e_difficulty_id :=
                     models.ex_difficulty_id experience;
                   schemas.e_price := models.ex_price experience;
                   schemas.e_duration := models.ex_duration experience;
                   schemas.e_img_preview_path :=
                     models.ex_img_preview_path experience;
                   schemas.e_img_paths := models.ex_img_paths experience;
                   schemas.e_state_id := models.ex_state_id experience |} |}
    | None => Raise (HTTPException 404 "Experience not found.")
    end.

(** [bool(t)] of a [datetime.time]: always true. *)
Definition truthy_time (t : Z * Z * Z) : bool := true.

(** The in-place assignments of [update]. *)
Definition merge_experience (experience : models.Experiences)
    (experience_data : schemas.ExperienceBase) : models.Experiences :=
  {| models.ex_id := models.ex_id experience;
     models.ex_title :=
       if truthy_str (schemas.e_title experience_data)
       then schemas.e_title experience_data
       else models.ex_title experience;
     models.ex_description :=
       if truthy_str (schemas.e_description experience_data)
       then schemas.e_description experience_data
       else models.ex_description experience;
     models.ex_difficulty_id :=
       if truthy_int (schemas.e_difficulty_id experience_data)
       then schemas.e_difficulty_id experience_data
       else models.ex_difficulty_id experience;
     models.ex_price :=
       if truthy_list (schemas.e_price experience_data)
       then schemas.e_price experience_data
       else models.ex_price experience;
     models.ex_img_preview_path :=
       if truthy_str (schemas.e_img_preview_path experience_data)
       then schemas.e_img_preview_path experience_data
       else models.ex_img_preview_path experience;
     models.ex_img_paths :=
       if truthy_list (schemas.e_img_paths experience_data)
       then schemas.e_img_paths experience_data
       else models.ex_img_paths experience;
     models.ex_duration :=
       if truthy_time (schemas.e_duration experience_data)
       then schemas.e_duration experience_data
       else models.ex_duration experience;
     models.ex_state_id :=
       if truthy_int (schemas.e_state_id experience_data)
       then schemas.e_state_id experience_data
       else models.ex_state_id experience |}.

Section with_store.
Context `{PostGIS}.

Definition update (experience_id : Z)
    (experience_data : schemas.ExperienceBase) (db : Database)
  : result (bool * Database) :=
  match crud.get_experience db experience_id with
  | Some experience =>
      crud.update_dirty db
        (DirtyExperience (merge_experience experience experience_data))
  | None => Raise (HTTPException 404 "Experience not found")
  end.

End with_store.

End experiences_api.

(* ===================================================================== *)
(** * api_routers/discovery_api.py                                        *)
(* ===================================================================== *)

Module discovery_api.

(** [extract_coordinates]: [re.search] on a value that is not a string
    raises [TypeError]. *)
Definition extract_coordinates (point_str : option string) : result string :=
  match point_str with
  | None => Raise (TypeError "expected string or bytes-like object")
  | Some s =>
      match re.search_group s with
      | Some group1 => Ok group1
      | None => Ok ""
      end
  end.

(** [f"POINT ({x})"]: the point literal handed to the store. *)
Definition point_literal (coordinate : string) : string :=
  "POINT (" +:+ coordinate +:+ ")".

(** [str(x)] of an optional string inside an f-string. *)
Definition format_opt (x : option string) : string :=
  match x with Some s => s | None => "None" end.

(** The in-place assignments of [update], in source order.  The branch for
    [video_paths] assigns the attribute to itself, and no branch mentions
    [address]. *)
Definition merge_discovery (discovery : models.Discovery)
    (discovery_data : schemas.DiscoveryBase) : models.Discovery :=
  {| models.di_id := models.di_id discovery;
     models.di_title :=
       if truthy_str (schemas.d_title discovery_data)
       then schemas.d_title discovery_data
       else models.di_title discovery;
     models.di_description :=
       if truthy_str (schemas.d_description discovery_data)
       then schemas.d_description discovery_data
       else models.di_description discovery;
     models.di_video_paths :=
       if truthy_list (schemas.d_video_paths discovery_data)
       then models.di_video_paths discovery
       else models.di_video_paths discovery;
     models.di_coordinate_gps :=
       match schemas.d_coordinate_gps discovery_data with
       | Some c =>
           if truthy_str c then GeomText (point_literal c)
           else models.di_coordinate_gps discovery
       | None => models.di_coordinate_gps discovery
       end;
     models.di_img_preview_path :=
       if truthy_str (schemas.d_img_preview_path discovery_data)
       then schemas.d_img_preview_path discovery_data
       else models.di_img_preview_path discovery;
     models.di_img_paths :=
       if truthy_list (schemas.d_img_paths discovery_data)
       then schemas.d_img_paths discovery_data
       else models.di_img_paths discovery;
     models.di_state_id :=
       if truthy_int (schemas.d_state_id discovery_data)
       then schemas.d_state_id discovery_data
       else models.di_state_id discovery;
     models.di_kind_id :=
       if truthy_int (schemas.d_kind_id discovery_data)
       then schemas.d_kind_id discovery_data
       else models.di_kind_id discovery;
     models.di_address := models.di_address discovery |}.

Section with_shapely.
Context `{Shapely}.

(** The decode path of a discovery read. *)
Definition decode (geom_hex : string) : result string :=
  extract_coordinates (schemas.ewkb_to_wkt geom_hex).

(** The [schemas.Discovery(...)] built for one row. *)
Definition render (discovery : models.Discovery) : result schemas.Discovery :=
  coordinate_gps ← decode (geom_desc (models.di_coordinate_gps discovery));
  Ok {| schemas.r_id := models.di_id discovery;
        schemas.r_title := models.di_title discovery;
        schemas.r_description := models.di_description discovery;
        schemas.r_img_preview_path := models.di_img_preview_path discovery;
        schemas.r_img_paths := models.di_img_paths discovery;
        schemas.r_video_paths := models.di_video_paths discovery;
        schemas.r_coordinate_gps := coordinate_gps;
        schemas.r_address := models.di_address discovery;
        schemas.r_kind_id := models.di_kind_id discovery;
        schemas.r_state_id := models.di_state_id discovery |}.

(** [Query(1, ge=1, le=4)]. *)
Definition valid_category (category : Z) : bool :=
  (1 <=? category) && (category <=? 4).

Context `{PostGIS}.

Definition get_discoveries (cursor : option Z) (limit : Z) (category : Z)
    (all : bool) (db : Database) : result schemas.DiscoveryResponse :=
  if negb (valid_cursor cursor) then Raise (RequestValidationError "cursor")
  else if negb (valid_limit limit) then Raise (RequestValidationError "limit")
  else if negb (valid_category category)
  then Raise (RequestValidationError "category")
  else
    discoveries ← crud.get_discoveries db cursor limit category all;
    if truthy_list discoveries then
      let has_more := len_gt discoveries limit in
      let discoveries := slice_to discoveries limit in
      items ← mapM render discoveries;
      Ok {| schemas.dr_cursor :=
              if truthy_list discoveries
              then models.di_id <$> last_item discoveries
              else None;
            schemas.dr_has_more := has_more;
            schemas.dr_items := items |}
    else Raise (HTTPException 404 "No discoveries found.").

Definition update (discovery_id : Z) (discovery_data : schemas.DiscoveryBase)
    (db : Database) : result (bool * Database) :=
  match crud.get_discovery db discovery_id with
  | Some discovery =>
      crud.update_dirty db
        (DirtyDiscovery (merge_discovery discovery discovery_data))
  | None => Raise (HTTPException 404 "Discovery not found")
  end.

Definition create (assigned_id : Z) (discovery : schemas.DiscoveryBase)
    (db : Database) : result (bool * Database) :=
  if (schemas.d_state_id discovery <? 0) || (2 <? schemas.d_state_id discovery)
  then Raise (HTTPException 400 "state_id must be either 1 or 2.")
  else
    let coordinate_gps :=
      point_literal (format_opt (schemas.d_coordinate_gps discovery)) in
    let new_discovery :=
      {| models.di_id := 0;
         models.di_title := schemas.d_title discovery;
         models.di_description := schemas.d_description discovery;
         models.di_img_preview_path := schemas.d_img_preview_path discovery;
         models.di_img_paths := schemas.d_img_paths discovery;
         models.di_video_paths := schemas.d_video_paths discovery;
         models.di_coordinate_gps := GeomText coordinate_gps;
         models.di_address := schemas.d_address discovery;
         models.di_kind_id := schemas.d_kind_id discovery;
         models.di_state_id := schemas.d_state_id discovery |} in
    crud.create_discovery db assigned_id new_discovery.

(** The dict comprehension of [distance]: a later row with the same key
    replaces an earlier one. *)
Definition km_dict (distances_in_m : list (Z * float)) : gmap Z float :=
  foldl (fun acc distance => <[distance.1 := truediv distance.2 1000]> acc)
        ∅ distances_in_m.

Definition distance (my_position : string) (db : Database)
  : result (gmap Z float) :=
  distances_in_m ←
    crud.distance_from_discoveries db ("POINT(" +:+ my_position +:+ ")");
  if truthy_list distances_in_m
  then Ok (km_dict distances_in_m)
  else Raise (HTTPException 404 "No discoveries found.").

(** The single read; its 404 speaks of an experience. *)
Definition get_discovery (id : Z) (db : Database)
  : result schemas.Discovery :=
  if negb (experiences_api.valid_id id)
  then Raise (RequestValidationError "id")
  else
    match crud.get_discovery db id with
    | Some discovery => render discovery
    | None => Raise (HTTPException 404 "Experience not found.")
    end.

Definition delete (discovery_id : Z) (db : Database)
  : result (bool * Database) :=
  match crud.get_discovery db discovery_id with
  | Some discovery_to_remove => crud.delete_discovery db discovery_to_remove
  | None =>
      Raise (HTTPException 404
               ("No discovery found with id: " +:+ pretty discovery_id))
  end.

End with_shapely.
End discovery_api.

(* ===================================================================== *)
(** * Sample collaborators and sample data                                *)
(* ===================================================================== *)

(** Whether a character occurs in a string. *)
Fixpoint occurs (c : ascii) (s : string) : bool :=
  match s with
  | EmptyString => false
  | String x rest => Ascii.eqb x c || occurs c rest
  end.

(** A coordinate string without parentheses. *)
Definition no_parens (s : string) : Prop :=
  occurs re.open_paren s = false ∧ occurs re.close_paren s = false.

(** The rule of a partial update for one field: a truthy payload value
    replaces the stored one, a falsy one leaves it. *)
Definition overwrites_or_keeps {A} (truthy : A → bool)
    (payload old new : A) : Prop :=
  (truthy payload = true → new = payload)
  ∧ (truthy payload = false → new = old).

(** What the create operations raise on a rejected state_id. *)
Definition state_id_message : exn :=
  HTTPException 400 "state_id must be either 1 or 2.".

Module sample.

(** A credential whose text is its role claim; the empty one is invalid. *)
Definition jwt : Jwt :=
  {| is_jwt_valid := fun token =>
       match token with
       | EmptyString => Ok None
       | _ => Ok (Some {| role := token; user_id := 7 |})
       end;
     create_jwt := fun p => role p |}.

Definition bcrypt : Bcrypt :=
  {| hashpw := fun password salt => salt +:+ password;
     checkpw := fun password hashed => String.eqb hashed ("$" +:+ password) |}.

(** A geometry library that parses nothing. *)
Definition shapely : Shapely :=
  {| geometry := unit;
     loads := fun _ => None;
     is_empty := fun _ => true;
     wkt := fun _ => "" |}.

(** Distances as integers with floor division, enough to run examples. *)
Definition pyfloat : PyFloat := {| float := Z; truediv := Z.div |}.

Definition postgis : @PostGIS pyfloat :=
  @Build_PostGIS pyfloat
    (fun text => if String.prefix "POINT" text then Some text else None)
    (fun a b => Z.of_nat (String.length a + String.length b) * 1000).

Definition tourist (i : Z) (email : string) (state : Z) : models.TouristUser :=
  {| models.tu_id := i; models.tu_name := "Ada"; models.tu_surname := "L";
     models.tu_email := email; models.tu_img_profile := "a.png";
     models.tu_state_id := state; models.tu_telephone := "1";
     models.tu_password := "$pw" |}.

Definition experience (i state : Z) : models.Experiences :=
  {| models.ex_id := i; models.ex_title := "walk";
     models.ex_description := "a walk"; models.ex_difficulty_id := 1;
     models.ex_price := [("eur", 10)]; models.ex_duration := (1, 30, 0);
     models.ex_img_preview_path := "p.png"; models.ex_img_paths := ["p.png"];
     models.ex_state_id := state |}.

Definition discovery (i kind state : Z) : models.Discovery :=
  {| models.di_id := i; models.di_title := "arch";
     models.di_description := "an arch"; models.di_img_preview_path := "d.png";
     models.di_img_paths := ["d.png"]; models.di_video_paths := ["d.mp4"];
     models.di_coordinate_gps := WKBElement "0101";
     models.di_address := "via Roma"; models.di_kind_id := kind;
     models.di_state_id := state |}.

Definition me : schemas.TouristUser :=
  tourist_api.to_schema (tourist 5 "ada@example.org" 1).

Definition db : Database :=
  {| tourist_users := [tourist 5 "ada@example.org" 1];
     host_users := [];
     experiences := [experience 3 1; experience 1 1; experience 2 2;
                     experience 9 1];
     discoveries := [discovery 1 1 1; discovery 2 4 2; discovery 3 2 1];
     tourist_user_likes := [] |}.

Definition signup (state : Z) : schemas.TouristUserCreate :=
  {| schemas.name := "Ada"; schemas.surname := "L";
     schemas.email := "ada@example.org"; schemas.img_profile := "a.png";
     schemas.state_id := state; schemas.telephone := "1";
     schemas.password := "pw" |}.

Definition new_experience (state : Z) : schemas.ExperienceBase :=
  {| schemas.e_title := "walk"; schemas.e_description := "a walk";
     schemas.e_difficulty_id := 1; schemas.e_price := [("eur", 10)];
     schemas.e_duration := (1, 30, 0); schemas.e_img_preview_path := "p.png";
     schemas.e_img_paths := ["p.png"]; schemas.e_state_id := state |}.

Definition new_discovery (state : Z) : schemas.DiscoveryBase :=
  {| schemas.d_title := "arch"; schemas.d_description := "an arch";
     schemas.d_img_preview_path := "d.png"; schemas.d_img_paths := ["d.png"];
     schemas.d_video_paths := ["new.mp4"];
     schemas.d_coordinate_gps := Some "12.5 41.9";
     schemas.d_address := "via Po"; schemas.d_kind_id := 2;
     schemas.d_state_id := state |}.

(** A credential service that remembers one subject id. *)
Definition jwt_of (i : Z) : Jwt :=
  {| is_jwt_valid := fun token =>
       match token with
       | EmptyString => Ok None
       | _ => Ok (Some {| role := token; user_id := i |})
       end;
     create_jwt := fun p => role p |}.

(** Two hex digits per character. *)
Definition hex_char (n : N) : ascii :=
  ascii_of_N (if (n <? 10)%N then 48 + n else 87 + n).

Fixpoint hexlify (s : string) : string :=
  match s with
  | EmptyString => EmptyString
  | String c rest =>
      let n := N_of_ascii c in
      String (hex_char (n / 16)) (String (hex_char (n mod 16)) (hexlify rest))
  end.

(** A geometry library and a store that keep the text of a geometry. *)
Definition shapely_text : Shapely :=
  {| geometry := list Byte.byte;
     loads := fun bytes => Some bytes;
     is_empty := fun bytes => match bytes with [] => true | _ => false end;
     wkt := fun bytes => string_of_list_byte bytes |}.

Definition postgis_text : @PostGIS pyfloat :=
  @Build_PostGIS pyfloat
    (fun text => if String.prefix "POINT" text then Some (hexlify text)
                 else None)
    (fun a b => Z.of_nat (String.length a + String.length b) * 1000).

End sample.

(* ===================================================================== *)
(** * Theorems                                                            *)
(* ===================================================================== *)

(** ** The coordinate codec *)

Lemma span_group_run (s tl : string) :
  occurs re.close_paren s = false →
  re.span_group (s +:+ String re.close_paren tl)
  = (s, String re.close_paren tl).
Proof.
  induction s as [|c s IH]; intros Hs.
  - reflexivity.
  - cbn in Hs. apply orb_false_elim in Hs as [Hc Hs].
    change (re.span_group (String c (s +:+ String re.close_paren tl))
            = (String c s, String re.close_paren tl)).
    cbn [re.span_group]. rewrite Hc, (IH Hs). reflexivity.
Qed.

Lemma search_group_wrapped (s : string) :
  occurs re.close_paren s = false →
  re.search_group (String re.open_paren (s +:+ ")"))
  = match s with EmptyString => None | _ => Some s end.
Proof.
  intros Hs. cbn [re.search_group]. rewrite Ascii.eqb_refl.
  change ")" with (String re.close_paren EmptyString).
  rewrite (span_group_run s EmptyString Hs).
  destruct s; reflexivity.
Qed.

Example search_group_point :
  re.search_group "POINT (12.5 41.9)" = Some "12.5 41.9".
Proof. reflexivity. Qed.

Example search_group_skips_empty_pair :
  re.search_group "()(a)" = Some "a".
Proof. reflexivity. Qed.

Example search_group_no_parens : re.search_group "POINT EMPTY" = None.
Proof. reflexivity. Qed.

Example unhexlify_bytes :
  binascii.unhexlify "0aFF" = Some [Byte.x0a; Byte.xff].
Proof. reflexivity. Qed.

Example unhexlify_odd : binascii.unhexlify "0aF" = None.
Proof. reflexivity. Qed.

(** The group is what stands between the first opening parenthesis and
    the closing one that ends its run. *)
Lemma search_group_first (pre g post : string) :
  occurs re.open_paren pre = false →
  occurs re.close_paren g = false →
  g ≠ EmptyString →
  re.search_group
    (pre +:+ String re.open_paren (g +:+ String re.close_paren post))
  = Some g.
Proof.
  intros Hpre Hg Hne. induction pre as [|c pre IH].
  - change (re.search_group
              (String re.open_paren (g +:+ String re.close_paren post))
            = Some g).
    cbn [re.search_group]. rewrite Ascii.eqb_refl.
    rewrite (span_group_run g post Hg). by destruct g.
  - cbn in Hpre. apply orb_false_elim in Hpre as [Hc Hpre].
    change (re.search_group
              (String c (pre +:+ String re.open_paren
                                   (g +:+ String re.close_paren post)))
            = Some g).
    cbn [re.search_group]. rewrite Hc. by apply IH.
Qed.

Lemma extract_coordinates_point_literal (s : string) :
  occurs re.close_paren s = false →
  discovery_api.extract_coordinates (Some (discovery_api.point_literal s))
  = Ok s.
Proof.
  intros Hs. unfold discovery_api.extract_coordinates,
    discovery_api.point_literal.
  change ("POINT (" +:+ s +:+ ")")
    with ("POINT " +:+ String re.open_paren (s +:+ ")")).
  assert (Hskip : re.search_group
            ("POINT " +:+ String re.open_paren (s +:+ ")"))
          = re.search_group (String re.open_paren (s +:+ ")")))
    by reflexivity.
  rewrite Hskip, (search_group_wrapped s Hs).
  destruct s; reflexivity.
Qed.

(** C6: for every coordinate string [s] without parentheses, wrapping [s]
    as the point literal handed to the store (encode) and extracting the
    substring between the first matching parentheses (decode) gives back
    [s]. *)
Theorem roundtrip_point_literal (s : string) :
  no_parens s →
  discovery_api.extract_coordinates (Some (discovery_api.point_literal s))
  = Ok s.
Proof. intros [_ Hclose]. by apply extract_coordinates_point_literal. Qed.

Lemma roundtrip_point_literal_witness :
  no_parens "12.5 41.9"
  ∧ discovery_api.extract_coordinates
      (Some (discovery_api.point_literal "12.5 41.9")) = Ok "12.5 41.9".
Proof.
  assert (H : no_parens "12.5 41.9") by (split; reflexivity).
  exact (conj H (roundtrip_point_literal "12.5 41.9" H)).
Defined.

Lemma decode_unparseable `{Shapely} (geom_hex : string) :
  schemas.ewkb_to_wkt geom_hex = None →
  discovery_api.decode geom_hex
  = Raise (TypeError "expected string or bytes-like object").
Proof. unfold discovery_api.decode. by intros ->. Qed.

Lemma decode_parseable `{Shapely} (geom_hex text : string) :
  schemas.ewkb_to_wkt geom_hex = Some text →
  discovery_api.decode geom_hex
  = Ok (default "" (re.search_group text)).
Proof.
  unfold discovery_api.decode. intros ->. cbn.
  by destruct (re.search_group text).
Qed.

(** C5: at the hex text "zz", which is not a hex string, [ewkb_to_wkt]
    catches the error and returns [None], and the decode path then raises
    [TypeError] from [re.search]; it does not return the empty string.
    This holds whatever the geometry library does. *)
Theorem decode_not_hex_raises `{Shapely} :
  schemas.ewkb_to_wkt "zz" = None
  ∧ discovery_api.decode "zz"
    = Raise (TypeError "expected string or bytes-like object")
  ∧ discovery_api.decode "zz" ≠ Ok "".
Proof.
  assert (Hnone : schemas.ewkb_to_wkt "zz" = None) by reflexivity.
  split; [exact Hnone|].
  rewrite (decode_unparseable "zz" Hnone). by split.
Qed.

(** ** The state_id guard of the create operations *)

Lemma guard_rejects (s : Z) :
  s ≠ 0 → s ≠ 1 → s ≠ 2 → (s <? 0) || (2 <? s) = true.
Proof. intros. apply orb_true_iff. rewrite !Z.ltb_lt. lia. Qed.

(** Every state_id outside {0, 1, 2} is rejected by the three create
    operations before the store is touched. *)
Lemma create_rejects_outside_0_2 {B : Bcrypt} {F : PyFloat} {G : PostGIS}
    (s : Z) (db : Database) (assigned_id : Z)
    salt (t : schemas.TouristUserCreate) (e : schemas.ExperienceBase)
    (d : schemas.DiscoveryBase) :
  s ≠ 0 → s ≠ 1 → s ≠ 2 →
  schemas.state_id t = s → schemas.e_state_id e = s →
  schemas.d_state_id d = s →
  tourist_api.register_me salt assigned_id t db = Raise state_id_message
  ∧ experiences_api.create assigned_id e db = Raise state_id_message
  ∧ discovery_api.create assigned_id d db = Raise state_id_message.
Proof.
  intros H0 H1 H2 Ht He Hd.
  unfold tourist_api.register_me, experiences_api.create,
    discovery_api.create.
  rewrite Ht, He, Hd, (guard_rejects s H0 H1 H2). done.
Qed.

(** C3: at state_id = 0 the guard [state_id < 0 or state_id > 2] lets the
    request through: tourist signup and experience create persist a row
    whose state_id is 0, and discovery create reaches the store instead of
    failing with the InvalidInput message.  This holds for whatever id
    the store assigns. *)
Theorem create_accepts_state_id_zero {B : Bcrypt} {F : PyFloat}
    {G : PostGIS} (salt : string) (assigned_id : Z) :
  (∃ row,
     tourist_api.register_me salt assigned_id (sample.signup 0) empty_db
     = Ok (true, set_tourist_users empty_db [row])
     ∧ models.tu_state_id row = 0)
  ∧ (∃ row,
       experiences_api.create assigned_id (sample.new_experience 0) empty_db
       = Ok (true, set_experiences empty_db [row])
       ∧ models.ex_state_id row = 0)
  ∧ discovery_api.create assigned_id (sample.new_discovery 0) empty_db
    ≠ Raise state_id_message.
Proof.
  split; [|split].
  - eexists. split; [reflexivity|reflexivity].
  - eexists. split; [reflexivity|reflexivity].
  - unfold discovery_api.create, crud.create_discovery. cbn.
    destruct (ST_GeomFromText _); discriminate.
Qed.

(** ** Sign-in *)

Lemma find_none_iff {A} (p : A → bool) (l : list A) :
  List.find p l = None ↔ Forall (fun x => p x = false) l.
Proof.
  induction l as [|x l IH]; cbn.
  - split; [constructor|done].
  - destruct (p x) eqn:Hp.
    + split; [done|]. intros Hall. inversion Hall; congruence.
    + rewrite IH. split; [by constructor|]. by inversion 1.
Qed.

Lemma find_some_elem {A} (p : A → bool) (l : list A) (x : A) :
  List.find p l = Some x → x ∈ l ∧ p x = true.
Proof.
  induction l as [|y l IH]; cbn; [done|].
  destruct (p y) eqn:Hp.
  - intros [= ->]. split; [left|done].
  - intros Hf. destruct (IH Hf). split; [by right|done].
Qed.

(** C10: tourist sign-in fails with NotFound (404) for every email that no
    tourist row carries, and with Unauthorized (401) for an email whose
    account does not accept the password; hence the status of a failed
    sign-in tells whether the email is registered. *)
Theorem signin_failure_tells_registration {B : Bcrypt} {J : Jwt}
    (email password : string) (db : Database) :
  (Forall (fun u => models.tu_email u ≠ email) (tourist_users db) →
   tourist_api.signin email password db
   = Raise (HTTPException 404 "User doesn't exist-"))
  ∧ (∀ account,
       crud.get_tourist_user_by_email db email = Some account →
       encryption.check_password password (models.tu_password account)
       = false →
       tourist_api.signin email password db
       = Raise (HTTPException 401 "Incorrect username or password"))
  ∧ (∀ e,
       tourist_api.signin email password db = Raise e →
       (is_NotFound e ↔
        Forall (fun u => models.tu_email u ≠ email) (tourist_users db))
       ∧ (is_Unauthorized e ↔
          ∃ u, u ∈ tourist_users db ∧ models.tu_email u = email)).
Proof.
  assert (Hnone : crud.get_tourist_user_by_email db email = None
                  ↔ Forall (fun u => models.tu_email u ≠ email)
                           (tourist_users db)).
  { unfold crud.get_tourist_user_by_email. rewrite find_none_iff.
    apply Forall_iff. intros u. by rewrite String.eqb_neq. }
  split; [|split].
  - intros Hall. apply Hnone in Hall.
    unfold tourist_api.signin, tourist_api.authenticate_tourist.
    by rewrite Hall.
  - intros account Hacc Hpw.
    unfold tourist_api.signin, tourist_api.authenticate_tourist.
    by rewrite Hacc, Hpw.
  - intros e. unfold tourist_api.signin, tourist_api.authenticate_tourist.
    destruct (crud.get_tourist_user_by_email db email) as [account|] eqn:Hacc.
    + assert (Hreg : ∃ u, u ∈ tourist_users db ∧ models.tu_email u = email).
      { apply find_some_elem in Hacc as [Hin Heq].
        exists account. split; [done|]. by apply String.eqb_eq. }
      assert (Hnot : ¬ Forall (fun u => models.tu_email u ≠ email)
                       (tourist_users db)).
      { intros Hall. apply Hnone in Hall. congruence. }
      destruct (encryption.check_password _ _); cbn;
        [destruct (truthy_int _)|]; intros [= <-]; cbn; tauto.
    + intros [= <-]. cbn. split; [tauto|].
      split; [done|]. intros (u & Hin & Heq).
      pose proof (proj1 Hnone eq_refl) as Hall.
      rewrite Forall_forall in Hall. by apply (Hall u).
Qed.

Lemma signin_failure_tells_registration_witness :
  @tourist_api.signin sample.bcrypt sample.jwt
    "bob@example.org" "pw" sample.db
  = Raise (HTTPException 404 "User doesn't exist-")
  ∧ @tourist_api.signin sample.bcrypt sample.jwt
      "ada@example.org" "wrong" sample.db
    = Raise (HTTPException 401 "Incorrect username or password").
Proof.
  split.
  - apply (proj1 (@signin_failure_tells_registration sample.bcrypt sample.jwt
                    "bob@example.org" "pw" sample.db)).
    repeat constructor; discriminate.
  - apply (proj1 (proj2 (@signin_failure_tells_registration sample.bcrypt
                           sample.jwt "ada@example.org" "wrong" sample.db))
             (sample.tourist 5 "ada@example.org" 1));
      reflexivity.
Defined.

(** ** Authorization *)

(** Counterexample to C4 as stated: the host-or-tourist evaluator grants a
    credential with role Host although no host record exists for its
    subject; it never looks a record up. *)
Lemma role_set_evaluator_needs_no_record :
  ¬ (∀ (J : Jwt) (token : string) (p : Payload) (db : Database),
       is_jwt_valid token = Ok (Some p) →
       role p = "Host" →
       crud.get_host_user db (user_id p) = None →
       ∃ e, authentication_data.get_tourist_host_priviledge token = Raise e
            ∧ is_NotFound e).
Proof.
  intros Hclaim.
  destruct (Hclaim sample.jwt "Host" {| role := "Host"; user_id := 7 |}
              empty_db eq_refl eq_refl eq_refl) as (e & Hraise & _).
  discriminate Hraise.
Qed.

(** C4, amended: the single-role evaluators [get_current_tourist] (role
    Tourist) and [get_current_host] (role Host) resolve the subject's
    record: NotFound when there is none, AccountDeactivated when its
    state_id is not 1, and an identity only for a record with state_id 1.
    The role-set evaluators (host-or-tourist, any-of-three) decide on the
    role claim alone. *)
Theorem current_user_resolves_record {J : Jwt} (token : string)
    (p : Payload) (db : Database) :
  is_jwt_valid token = Ok (Some p) →
  (role p = "Tourist" →
   (crud.get_tourist_user db (user_id p) = None →
    ∃ e, tourist_api.get_current_tourist token db = Raise e ∧ is_NotFound e)
   ∧ (∀ u, crud.get_tourist_user db (user_id p) = Some u →
           models.tu_state_id u ≠ 1 →
           ∃ e, tourist_api.get_current_tourist token db = Raise e
                ∧ is_AccountDeactivated e)
   ∧ (∀ identity,
        tourist_api.get_current_tourist token db = Ok identity ↔
        ∃ u, crud.get_tourist_user db (user_id p) = Some u
             ∧ models.tu_state_id u = 1
             ∧ identity = tourist_api.to_schema u))
  ∧ (role p = "Host" →
     (crud.get_host_user db (user_id p) = None →
      ∃ e, host_api.get_current_host token db = Raise e ∧ is_NotFound e)
     ∧ (∀ u, crud.get_host_user db (user_id p) = Some u →
             models.hu_state_id u ≠ 1 →
             ∃ e, host_api.get_current_host token db = Raise e
                  ∧ is_AccountDeactivated e)
     ∧ (∀ identity,
          host_api.get_current_host token db = Ok identity ↔
          ∃ u, crud.get_host_user db (user_id p) = Some u
               ∧ models.hu_state_id u = 1
               ∧ identity = host_api.to_schema u))
  ∧ (role p = "Host" ∨ role p = "Tourist" →
     authentication_data.get_tourist_host_priviledge token = Ok true
     ∧ authentication_data.get_tourist_host_admin_priviledge token
       = Ok (role p)).
Proof.
  intros Hvalid. split; [|split].
  - intros Hrole. unfold tourist_api.get_current_tourist.
    rewrite Hvalid. cbn. rewrite Hrole. cbn.
    destruct (crud.get_tourist_user db (user_id p)) as [u|].
    + destruct (Z.eqb_spec (models.tu_state_id u) 1) as [H1|H1].
      * split; [done|]. split; [intros u' [= <-] Hne; by destruct Hne|].
        intros identity. split.
        -- intros [= <-]. by exists u.
        -- intros (u' & [= <-] & _ & ->). done.
      * split; [done|]. split.
        -- intros u' [= <-] _. eexists. by split.
        -- intros identity. split; [done|].
           intros (u' & [= <-] & Hone & _). done.
    + split; [intros _; eexists; by split|].
      split; [done|]. intros identity. split; [done|].
      intros (u & Hu & _). done.
  - intros Hrole. unfold host_api.get_current_host.
    rewrite Hvalid. cbn. rewrite Hrole. cbn.
    destruct (crud.get_host_user db (user_id p)) as [u|].
    + destruct (Z.eqb_spec (models.hu_state_id u) 1) as [H1|H1].
      * split; [done|]. split; [intros u' [= <-] Hne; by destruct Hne|].
        intros identity. split.
        -- intros [= <-]. by exists u.
        -- intros (u' & [= <-] & _ & ->). done.
      * split; [done|]. split.
        -- intros u' [= <-] _. eexists. by split.
        -- intros identity. split; [done|].
           intros (u' & [= <-] & Hone & _). done.
    + split; [intros _; eexists; by split|].
      split; [done|]. intros identity. split; [done|].
      intros (u & Hu & _). done.
  - unfold authentication_data.get_tourist_host_priviledge,
      authentication_data.get_tourist_host_admin_priviledge.
    rewrite Hvalid. cbn. by intros [-> | ->].
Qed.

Lemma current_user_resolves_record_witness :
  @tourist_api.get_current_tourist sample.jwt "Tourist" sample.db
  = Raise (HTTPException 404 "Tourist not found")
  ∧ @authentication_data.get_tourist_host_priviledge sample.jwt "Tourist"
    = Ok true.
Proof.
  pose proof (@current_user_resolves_record sample.jwt "Tourist"
                {| role := "Tourist"; user_id := 7 |} sample.db eq_refl)
    as (Htourist & _ & Hset).
  split.
  - destruct (proj1 (Htourist eq_refl) eq_refl) as (e & Hraise & _).
    reflexivity.
  - exact (proj1 (Hset (or_intror eq_refl))).
Defined.

(** ** Cursor pagination *)

#[local] Instance key_le_total {A} (key : A → Z) : Total (key_le key).
Proof. intros a b. unfold key_le. lia. Qed.

#[local] Instance key_le_trans {A} (key : A → Z) : Transitive (key_le key).
Proof. intros a b c. unfold key_le. lia. Qed.

Lemma order_by_sorted {A} (key : A → Z) (rows : list A) :
  StronglySorted (key_le key) (order_by key rows).
Proof. apply StronglySorted_merge_sort; apply _. Qed.

Lemma order_by_perm {A} (key : A → Z) (rows : list A) :
  order_by key rows ≡ₚ rows.
Proof. apply merge_sort_Permutation. Qed.

Lemma StronglySorted_take {A} (R : relation A) (n : nat) (l : list A) :
  StronglySorted R l → StronglySorted R (take n l).
Proof.
  intros Hl. rewrite <- (take_drop n l) in Hl.
  by apply StronglySorted_app_1_l in Hl.
Qed.

Lemma StronglySorted_drop {A} (R : relation A) (n : nat) (l : list A) :
  StronglySorted R l → StronglySorted R (drop n l).
Proof.
  intros Hl. rewrite <- (take_drop n l) in Hl.
  by apply StronglySorted_app_1_r in Hl.
Qed.

(** What the two branches of a list query return for a cursor and a page
    size that passed validation: [limit + 1] rows from the offset on. *)
Lemma offset_limit_fetch {A} (q : list A) (cursor : option Z) (limit : Z) :
  0 < limit → valid_cursor cursor = true →
  match cursor with
  | None => sql_limit (limit + 1) q
  | Some c => rows ← sql_offset c q; sql_limit (limit + 1) rows
  end
  = Ok (take (S (Z.to_nat limit)) (drop (Z.to_nat (default 0 cursor)) q)).
Proof.
  intros Hlimit Hcursor.
  assert (Hlim : (limit + 1 <? 0) = false) by (apply Z.ltb_ge; lia).
  assert (Hn : Z.to_nat (limit + 1) = S (Z.to_nat limit)) by lia.
  destruct cursor as [c|]; cbn in *.
  - apply Z.leb_le in Hcursor. unfold sql_offset, sql_limit.
    assert (Hc : (c <? 0) = false) by (apply Z.ltb_ge; lia).
    rewrite Hc. cbn. by rewrite Hlim, Hn.
  - unfold sql_limit. by rewrite Hlim, Hn.
Qed.

(** The sentinel row decides [has_more]; the page is the first [limit]
    rows and is not empty when a row was fetched. *)
Lemma page_of_fetch {A} (matching : list A) (limit : Z) :
  0 < limit → matching ≠ [] →
  let fetched := take (S (Z.to_nat limit)) matching in
  truthy_list fetched = true
  ∧ slice_to fetched limit = take (Z.to_nat limit) matching
  ∧ truthy_list (take (Z.to_nat limit) matching) = true
  ∧ (len_gt fetched limit = true ↔ is_Some (matching !! Z.to_nat limit)).
Proof.
  intros Hlimit Hne fetched. subst fetched.
  destruct matching as [|x m]; [done|].
  destruct (Z.to_nat limit) as [|n] eqn:Hn; [lia|].
  split; [done|]. split; [|split; [done|]].
  - unfold slice_to. replace (0 <=? limit) with true
      by (symmetry; apply Z.leb_le; lia).
    rewrite Hn, take_take. f_equal. lia.
  - unfold len_gt. rewrite Z.ltb_lt, lookup_lt_is_Some, length_take.
    cbn [length]. lia.
Qed.

(** C1: for a page size [limit > 0] and a cursor that passed validation,
    both within what the store takes as OFFSET and LIMIT (the offset and
    [limit + 1] fit a 64-bit integer),
    the experience list operation fetches [limit + 1] rows in ascending id
    order from the published rows after the cursor offset; when such rows
    exist it returns a page of at most [limit] items, the first [limit] of
    them, with [has_more] true exactly when a row number [limit + 1]
    exists for the same filter and cursor, and a cursor that is the id of
    the last item of the page; when none exists it fails with NotFound. *)
Theorem get_experiences_page (db : Database) (cursor : option Z) (limit : Z) :
  0 < limit → valid_cursor cursor = true →
  in_bigint (default 0 cursor) = true → in_bigint (limit + 1) = true →
  let matching :=
    drop (Z.to_nat (default 0 cursor))
      (order_by models.ex_id
         (filter (fun e => models.ex_state_id e = 1) (experiences db))) in
  let fetched := take (Z.to_nat (limit + 1)) matching in
  crud.get_experiences db cursor limit = Ok fetched
  ∧ StronglySorted (key_le models.ex_id) fetched
  ∧ (matching = [] →
     experiences_api.get_experiences cursor limit db
     = Raise (HTTPException 404 "No experiences found."))
  ∧ (matching ≠ [] →
     ∃ page last_row,
       experiences_api.get_experiences cursor limit db = Ok page
       ∧ schemas.er_items page
         = map schemas.Experience_from_orm (take (Z.to_nat limit) matching)
       ∧ Z.of_nat (length (schemas.er_items page)) <= limit
       ∧ (schemas.er_has_more page = true
          ↔ is_Some (matching !! Z.to_nat limit))
       ∧ last (take (Z.to_nat limit) matching) = Some last_row
       ∧ schemas.er_cursor page = Some (models.ex_id last_row)).
Proof.
  intros Hlimit Hcursor _ _ matching fetched.
  assert (Hn : Z.to_nat (limit + 1) = S (Z.to_nat limit)) by lia.
  assert (Hfetch : crud.get_experiences db cursor limit = Ok fetched).
  { unfold crud.get_experiences, fetched, matching. rewrite Hn.
    by apply offset_limit_fetch. }
  assert (Hvc : negb (valid_cursor cursor) = false) by by rewrite Hcursor.
  assert (Hvl : negb (valid_limit limit) = false).
  { unfold valid_limit. by rewrite (proj2 (Z.ltb_lt 0 limit) Hlimit). }
  split; [exact Hfetch|]. split; [|split].
  - apply StronglySorted_take, StronglySorted_drop, order_by_sorted.
  - intros Hempty. unfold experiences_api.get_experiences.
    rewrite Hvc, Hvl, Hfetch. cbn. unfold fetched. by rewrite Hempty, take_nil.
  - intros Hne.
    destruct (page_of_fetch matching limit Hlimit Hne)
      as (Htruthy & Hslice & Hpage & Hmore).
    destruct (proj2 (last_is_Some (take (Z.to_nat limit) matching)))
      as [last_row Hlast].
    { intros Hnil. by rewrite Hnil in Hpage. }
    eexists _, last_row. unfold experiences_api.get_experiences.
    rewrite Hvc, Hvl, Hfetch. cbn. unfold fetched. rewrite Hn.
    rewrite Htruthy, Hslice, Hpage. split; [reflexivity|]. cbn.
    split; [reflexivity|]. split; [|split; [exact Hmore|]].
    + rewrite length_map, length_take. lia.
    + split; [exact Hlast|]. unfold last_item. by rewrite Hlast.
Qed.

Lemma get_experiences_page_witness :
  crud.get_experiences sample.db None 2
  = Ok [sample.experience 1 1; sample.experience 3 1; sample.experience 9 1]
  ∧ ∃ page,
      experiences_api.get_experiences None 2 sample.db = Ok page
      ∧ schemas.er_has_more page = true
      ∧ schemas.er_cursor page = Some 3.
Proof.
  pose proof (get_experiences_page sample.db None 2 eq_refl eq_refl
                eq_refl eq_refl)
    as (Hfetch & _ & _ & Hpage).
  split; [exact Hfetch|].
  destruct (Hpage ltac:(discriminate))
    as (page & last_row & Hok & _ & _ & Hmore & Hlast & Hcur).
  exists page. split; [exact Hok|]. split.
  - apply Hmore. by eexists.
  - rewrite Hcur. injection Hlast as <-. reflexivity.
Defined.

(** ** Published rows only *)

Lemma offset_limit_Forall {A} (P : A → Prop) (q rows : list A)
    (cursor : option Z) (limit : Z) :
  Forall P q →
  match cursor with
  | None => sql_limit (limit + 1) q
  | Some c => r ← sql_offset c q; sql_limit (limit + 1) r
  end = Ok rows →
  Forall P rows.
Proof.
  intros Hq. unfold sql_offset, sql_limit. destruct cursor as [c|]; cbn.
  - destruct (c <? 0); cbn; [done|].
    destruct (limit + 1 <? 0); [done|]. intros [= <-].
    by apply Forall_take, Forall_drop.
  - destruct (limit + 1 <? 0); [done|]. intros [= <-]. by apply Forall_take.
Qed.

Lemma order_by_filter_Forall {A} (key : A → Z) (P : A → Prop)
    `{∀ x, Decision (P x)} (rows : list A) :
  Forall P (order_by key (filter P rows)).
Proof.
  rewrite order_by_perm. apply Forall_forall. intros x Hx.
  by apply list_elem_of_filter in Hx as [HP _].
Qed.

Lemma slice_to_Forall {A} (P : A → Prop) (l : list A) (n : Z) :
  Forall P l → Forall P (slice_to l n).
Proof. intros Hl. unfold slice_to. destruct (0 <=? n); by apply Forall_take. Qed.

Lemma mapM_render_Forall `{Shapely} (P : models.Discovery → Prop)
    (Q : schemas.Discovery → Prop) (rows : list models.Discovery)
    (items : list schemas.Discovery) :
  (∀ d r, discovery_api.render d = Ok r → P d → Q r) →
  Forall P rows → mapM discovery_api.render rows = Ok items →
  Forall Q items.
Proof.
  intros HPQ Hrows. revert items.
  induction Hrows as [|d rows Hd Hrows IH]; intros items; cbn.
  - intros [= <-]. constructor.
  - destruct (discovery_api.render d) as [r|] eqn:Hr; cbn; [|done].
    destruct (mapM discovery_api.render rows) as [rs|]; cbn; [|done].
    intros [= <-]. constructor; [by eapply HPQ|by apply IH].
Qed.

Lemma render_keeps_state_kind `{Shapely} (d : models.Discovery)
    (r : schemas.Discovery) :
  discovery_api.render d = Ok r →
  schemas.r_state_id r = models.di_state_id d
  ∧ schemas.r_kind_id r = models.di_kind_id d.
Proof.
  unfold discovery_api.render.
  destruct (discovery_api.decode _); cbn; [|done]. by intros [= <-].
Qed.

(** C9: every row the experience and discovery list operations return has
    state_id 1 (and, for discoveries, a kind_id in the requested category
    set), at the query and in every page, for any cursor and limit; the
    get-by-id operations find a stored entity by its id whatever its
    state_id. *)
Theorem lists_return_published_only {S : Shapely} {F : PyFloat} {G : PostGIS}
    (db : Database) (cursor : option Z) (limit category : Z) (all : bool) :
  (∀ rows, crud.get_experiences db cursor limit = Ok rows →
           Forall (fun e => models.ex_state_id e = 1) rows)
  ∧ (∀ page, experiences_api.get_experiences cursor limit db = Ok page →
             Forall (fun e => schemas.e_state_id (schemas.e_base e) = 1)
                    (schemas.er_items page))
  ∧ (∀ rows, crud.get_discoveries db cursor limit category all = Ok rows →
             Forall (fun d => models.di_state_id d = 1
                              ∧ models.di_kind_id d
                                ∈ (if all then [1; 2; 3; 4] else [category]))
                    rows)
  ∧ (∀ page,
       discovery_api.get_discoveries cursor limit category all db = Ok page →
       Forall (fun d => schemas.r_state_id d = 1
                        ∧ schemas.r_kind_id d
                          ∈ (if all then [1; 2; 3; 4] else [category]))
              (schemas.dr_items page))
  ∧ (∀ e, e ∈ experiences db →
          ∃ e', crud.get_experience db (models.ex_id e) = Some e'
                ∧ models.ex_id e' = models.ex_id e)
  ∧ (∀ d, d ∈ discoveries db →
          ∃ d', crud.get_discovery db (models.di_id d) = Some d'
                ∧ models.di_id d' = models.di_id d).
Proof.
  assert (Hexp : ∀ rows, crud.get_experiences db cursor limit = Ok rows →
                         Forall (fun e => models.ex_state_id e = 1) rows).
  { intros rows. unfold crud.get_experiences.
    apply offset_limit_Forall, order_by_filter_Forall. }
  assert (Hdis : ∀ rows,
             crud.get_discoveries db cursor limit category all = Ok rows →
             Forall (fun d => models.di_state_id d = 1
                              ∧ models.di_kind_id d
                                ∈ (if all then [1; 2; 3; 4] else [category]))
                    rows).
  { intros rows. unfold crud.get_discoveries.
    destruct all; cbn [negb];
      apply offset_limit_Forall, order_by_filter_Forall. }
  split; [exact Hexp|]. split; [|split; [exact Hdis|split; [|split]]].
  - intros page. unfold experiences_api.get_experiences.
    destruct (negb (valid_cursor cursor)); [done|].
    destruct (negb (valid_limit limit)); [done|].
    destruct (crud.get_experiences db cursor limit) as [rows|] eqn:Hq;
      cbn; [|done].
    destruct (truthy_list rows); [|done]. intros [= <-]. cbn.
    apply Forall_fmap. eapply Forall_impl.
    + apply slice_to_Forall, Hexp. reflexivity.
    + by intros e He.
  - intros page. unfold discovery_api.get_discoveries.
    destruct (negb (valid_cursor cursor)); [done|].
    destruct (negb (valid_limit limit)); [done|].
    destruct (negb (discovery_api.valid_category category)); [done|].
    destruct (crud.get_discoveries db cursor limit category all)
      as [rows|] eqn:Hq; cbn; [|done].
    destruct (truthy_list rows); [|done].
    destruct (mapM discovery_api.render (slice_to rows limit))
      as [items|] eqn:Hitems; cbn; [|done].
    intros [= <-]. cbn.
    eapply mapM_render_Forall; [|apply slice_to_Forall, Hdis; reflexivity
                                |exact Hitems].
    intros d r Hr [Hs Hk]. apply render_keeps_state_kind in Hr as [-> ->].
    by split.
  - intros e He. unfold crud.get_experience.
    destruct (List.find _ (experiences db)) as [e'|] eqn:Hf.
    + exists e'. split; [done|].
      apply find_some_elem in Hf as [_ Heq]. by apply Z.eqb_eq.
    + apply find_none_iff in Hf. rewrite Forall_forall in Hf.
      specialize (Hf e He). by rewrite Z.eqb_refl in Hf.
  - intros d Hd. unfold crud.get_discovery.
    destruct (List.find _ (discoveries db)) as [d'|] eqn:Hf.
    + exists d'. split; [done|].
      apply find_some_elem in Hf as [_ Heq]. by apply Z.eqb_eq.
    + apply find_none_iff in Hf. rewrite Forall_forall in Hf.
      specialize (Hf d Hd). by rewrite Z.eqb_refl in Hf.
Qed.

Lemma lists_return_published_only_witness :
  Forall (fun e => models.ex_state_id e = 1)
         [sample.experience 1 1; sample.experience 3 1]
  ∧ ∃ e', crud.get_experience sample.db 2 = Some e'
          ∧ models.ex_state_id e' = 2.
Proof.
  pose proof (@lists_return_published_only sample.shapely sample.pyfloat
                sample.postgis sample.db None 1 1 true)
    as (Hrows & _ & _ & _ & Hget & _).
  split.
  - apply Hrows. reflexivity.
  - destruct (Hget (sample.experience 2 2)) as (e' & He' & _).
    { apply list_elem_of_In. cbn. tauto. }
    exists e'. split; [exact He'|].
    cbv in He'. by injection He' as <-.
Defined.

(** ** Likes *)

Lemma get_like_spec (db : Database) (t e : Z) :
  let like := {| models.tourist_user_id := t; models.experience_id := e |} in
  (like ∈ tourist_user_likes db → crud.get_like db t e = Some like)
  ∧ (like ∉ tourist_user_likes db → crud.get_like db t e = None).
Proof.
  intros like. unfold crud.get_like.
  set (p := fun l : models.TouristUserLikes =>
              (models.tourist_user_id l =? t)
              && (models.experience_id l =? e)).
  assert (Hp : ∀ l, p l = true ↔ l = like).
  { intros [t' e']. unfold p, like. cbn.
    rewrite andb_true_iff, !Z.eqb_eq. split; [by intros [-> ->]|].
    by intros [= -> ->]. }
  split; intros Hin.
  - destruct (List.find p (tourist_user_likes db)) as [l|] eqn:Hf.
    + apply find_some_elem in Hf as [_ Hl]. apply Hp in Hl. by subst.
    + apply find_none_iff in Hf. rewrite Forall_forall in Hf.
      specialize (Hf like Hin). rewrite (proj2 (Hp like) eq_refl) in Hf.
      discriminate.
  - apply find_none_iff, Forall_forall. intros l Hl.
    destruct (p l) eqn:Hpl; [|done]. apply Hp in Hpl. by subst.
Qed.

Lemma filter_ne_absent {A} `{EqDecision A} (x : A) (l : list A) :
  x ∉ l → filter (fun y => y ≠ x) l = l.
Proof.
  induction l as [|y l IH]; [done|]. intros Hnot.
  apply not_elem_of_cons in Hnot as [Hne Hnot].
  rewrite filter_cons_True by done. by rewrite IH.
Qed.

Lemma filter_ne_present {A} `{EqDecision A} (x : A) (l : list A) :
  NoDup l → x ∈ l → filter (fun y => y ≠ x) l ++ [x] ≡ₚ l.
Proof.
  induction l as [|y l IH]; intros Hnd Hin; [by apply elem_of_nil in Hin|].
  apply NoDup_cons in Hnd as [Hy Hnd].
  destruct (decide (y = x)) as [->|Hne].
  - rewrite filter_cons_False by (intros ?; done).
    rewrite (filter_ne_absent x l Hy). symmetry. apply Permutation_cons_append.
  - apply elem_of_cons in Hin as [->|Hin]; [done|].
    rewrite filter_cons_True by done. cbn. by rewrite (IH Hnd Hin).
Qed.

(** C8: for a tourist and an existing experience, on a Like table that
    holds each row at most once, a toggle creates the row of the pair when
    it is absent (answering true) and deletes it when it is present
    (answering false); the table still holds each row at most once; and a
    second toggle brings back the rows of the start, so the like-state of
    every pair and the number of Like rows are those of the start. *)
Theorem toggle_like_involution (db : Database) (me : schemas.TouristUser)
    (experience_id : Z) :
  NoDup (tourist_user_likes db) →
  is_Some (crud.get_experience db experience_id) →
  let like := {| models.tourist_user_id := schemas.tourist_id me;
                 models.experience_id := experience_id |} in
  ∃ answer db1 db2,
    tourist_api.toggle_like experience_id db me = Ok (Some answer, db1)
    ∧ tourist_api.toggle_like experience_id db1 me
      = Ok (Some (negb answer), db2)
    ∧ (answer = true ↔ like ∉ tourist_user_likes db)
    ∧ (like ∈ tourist_user_likes db1 ↔ like ∉ tourist_user_likes db)
    ∧ NoDup (tourist_user_likes db1)
    ∧ NoDup (tourist_user_likes db2)
    ∧ tourist_user_likes db2 ≡ₚ tourist_user_likes db
    ∧ length (tourist_user_likes db2) = length (tourist_user_likes db).
Proof.
  intros Hnd [x Hx] like.
  destruct (get_like_spec db (schemas.tourist_id me) experience_id)
    as [Hpresent Habsent]. fold like in Hpresent, Habsent.
  destruct (decide (like ∈ tourist_user_likes db)) as [Hin|Hnot].
  - (* liked: the toggle deletes, the next one creates *)
    set (rest := filter (fun l => l ≠ like) (tourist_user_likes db)).
    assert (Hrest : like ∉ rest).
    { unfold rest. rewrite list_elem_of_filter. by intros [Hne _]. }
    set (db1 := set_tourist_user_likes db rest).
    destruct (get_like_spec db1 (schemas.tourist_id me) experience_id)
      as [_ Habsent1]. fold like in Habsent1.
    exists false, db1, (set_tourist_user_likes db1 (rest ++ [like])).
    assert (Hperm : rest ++ [like] ≡ₚ tourist_user_likes db)
      by by apply filter_ne_present.
    split; [|split; [|split; [|split; [|split; [|split; [|split]]]]]].
    + unfold tourist_api.toggle_like. by rewrite Hx, (Hpresent Hin).
    + unfold tourist_api.toggle_like.
      change (crud.get_experience db1 experience_id)
        with (crud.get_experience db experience_id).
      rewrite Hx, (Habsent1 Hrest). unfold crud.create_like.
      fold like. cbn [tourist_user_likes db1 set_tourist_user_likes].
      by rewrite bool_decide_eq_false_2.
    + split; [done|]. by intros Hno.
    + cbn. split; [by intros ?|by intros ?].
    + cbn. by apply NoDup_filter.
    + cbn. by rewrite Hperm.
    + cbn. exact Hperm.
    + cbn. by rewrite Hperm.
  - (* not liked: the toggle creates, the next one deletes *)
    set (db1 := set_tourist_user_likes db (tourist_user_likes db ++ [like])).
    destruct (get_like_spec db1 (schemas.tourist_id me) experience_id)
      as [Hpresent1 _]. fold like in Hpresent1.
    assert (Hin1 : like ∈ tourist_user_likes db1).
    { cbn. apply elem_of_app. right. by apply list_elem_of_singleton. }
    assert (Hback : filter (fun l => l ≠ like) (tourist_user_likes db1)
                    = tourist_user_likes db).
    { cbn. rewrite filter_app, (filter_ne_absent like _ Hnot).
      rewrite filter_cons_False by (intros ?; done).
      by rewrite filter_nil, app_nil_r. }
    exists true, db1, (set_tourist_user_likes db1 (tourist_user_likes db)).
    split; [|split; [|split; [|split; [|split; [|split; [|split]]]]]].
    + unfold tourist_api.toggle_like. rewrite Hx, (Habsent Hnot).
      unfold crud.create_like. fold like.
      by rewrite bool_decide_eq_false_2.
    + unfold tourist_api.toggle_like.
      change (crud.get_experience db1 experience_id)
        with (crud.get_experience db experience_id).
      rewrite Hx, (Hpresent1 Hin1). unfold crud.delete_like. cbn [mbind].
      cbn [result_bind]. by rewrite Hback.
    + done.
    + done.
    + cbn. apply NoDup_app. split; [done|]. split; [|apply NoDup_singleton].
      intros l Hl Hl'. apply list_elem_of_singleton in Hl'. by subst.
    + done.
    + done.
    + done.
Qed.

Lemma toggle_like_involution_witness :
  ∃ db1 db2,
    tourist_api.toggle_like 3 sample.db sample.me = Ok (Some true, db1)
    ∧ tourist_api.toggle_like 3 db1 sample.me = Ok (Some false, db2)
    ∧ tourist_user_likes db2 = [].
Proof.
  destruct (toggle_like_involution sample.db sample.me 3)
    as (answer & db1 & db2 & H1 & H2 & Hans & _ & _ & _ & _ & Hlen).
  { apply NoDup_nil_2. }
  { by eexists. }
  assert (answer = true) as ->.
  { apply Hans. apply not_elem_of_nil. }
  exists db1, db2. split; [exact H1|]. split; [exact H2|].
  by apply nil_length_inv.
Defined.

(** ** Distances *)

Section distances.
Context {F : PyFloat} {G : PostGIS}.

Lemma km_fold_absent (rows : list (Z * float)) (acc : gmap Z float) (i : Z) :
  i ∉ rows.*1 →
  foldl (fun acc distance => <[distance.1 := truediv distance.2 1000]> acc)
        acc rows !! i = acc !! i.
Proof.
  revert acc. induction rows as [|[j d] rows IH]; intros acc Hi; [done|].
  cbn in Hi. apply not_elem_of_cons in Hi as [Hne Hi].
  cbn. rewrite (IH _ Hi). by rewrite lookup_insert_ne.
Qed.

Lemma km_fold_present (rows : list (Z * float)) (acc : gmap Z float)
    (i : Z) (d : float) :
  NoDup rows.*1 → (i, d) ∈ rows →
  foldl (fun acc distance => <[distance.1 := truediv distance.2 1000]> acc)
        acc rows !! i = Some (truediv d 1000).
Proof.
  revert acc. induction rows as [|[j e] rows IH]; intros acc Hnd Hin.
  - by apply elem_of_nil in Hin.
  - cbn in Hnd. apply NoDup_cons in Hnd as [Hj Hnd].
    apply elem_of_cons in Hin as [[= -> ->]|Hin]; cbn.
    + rewrite (km_fold_absent rows _ j Hj). by rewrite lookup_insert_eq.
    + by apply IH.
Qed.

(** C7: for an origin that the store parses as a point and discovery ids
    that are a key, the distance operation fails with NotFound when there
    is no discovery, and otherwise returns a mapping whose keys are the
    discovery ids and whose value at each id is that discovery's distance
    in meters divided by 1000. *)
Theorem distance_in_km (my_position origin : string) (db : Database) :
  ST_GeomFromText ("POINT(" +:+ my_position +:+ ")") = Some origin →
  NoDup (map models.di_id (discoveries db)) →
  (discoveries db = [] →
   discovery_api.distance my_position db
   = Raise (HTTPException 404 "No discoveries found."))
  ∧ (discoveries db ≠ [] →
     ∃ result : gmap Z float,
       discovery_api.distance my_position db = Ok result
       ∧ (∀ d, d ∈ discoveries db →
               result !! models.di_id d
               = Some (truediv
                         (ST_Distance
                            (geom_desc (models.di_coordinate_gps d)) origin)
                         1000))
       ∧ (∀ i, is_Some (result !! i) →
               i ∈ map models.di_id (discoveries db))).
Proof.
  intros Horigin Hkey. unfold discovery_api.distance,
    crud.distance_from_discoveries. rewrite Horigin. cbn [mbind result_bind].
  set (rows := map _ (discoveries db)).
  assert (Hids : rows.*1 = map models.di_id (discoveries db)).
  { unfold rows. rewrite <- list_fmap_compose. done. }
  split.
  - intros Hempty. unfold rows. by rewrite Hempty.
  - intros Hne. exists (discovery_api.km_dict rows).
    split; [|split].
    + destruct (discoveries db) eqn:Hd; done.
    + intros d Hd. unfold discovery_api.km_dict.
      apply km_fold_present; [by rewrite Hids|].
      unfold rows. apply list_elem_of_fmap. by exists d.
    + intros i Hi. rewrite <- Hids.
      destruct (decide (i ∈ rows.*1)) as [|Hnot]; [done|].
      unfold discovery_api.km_dict in Hi.
      rewrite (km_fold_absent rows ∅ i Hnot), lookup_empty in Hi.
      by destruct Hi.
Qed.

End distances.

Lemma distance_in_km_witness :
  ∃ result : gmap Z (@float sample.pyfloat),
    @discovery_api.distance sample.pyfloat sample.postgis "12.0 41.0" sample.db
    = Ok result
    ∧ result !! 1 = Some (20 : Z)
    ∧ @discovery_api.distance sample.pyfloat sample.postgis "12.0 41.0"
        empty_db
      = Raise (HTTPException 404 "No discoveries found.").
Proof.
  destruct (@distance_in_km sample.pyfloat sample.postgis "12.0 41.0"
              "POINT(12.0 41.0)" sample.db eq_refl)
    as [_ Hsome].
  { apply (bool_decide_unpack _). reflexivity. }
  destruct (Hsome ltac:(discriminate)) as (result & Hok & Hval & _).
  exists result. split; [exact Hok|]. split.
  - apply (Hval (sample.discovery 1 1 1)). apply list_elem_of_In. cbn. tauto.
  - apply (@distance_in_km sample.pyfloat sample.postgis "12.0 41.0"
             "POINT(12.0 41.0)" empty_db eq_refl NoDup_nil_2).
    reflexivity.
Defined.

(** ** Partial update *)

Lemma overwrites_or_keeps_if {A} (truthy : A → bool) (payload old : A) :
  overwrites_or_keeps truthy payload old
    (if truthy payload then payload else old).
Proof. unfold overwrites_or_keeps. by destruct (truthy payload). Qed.

Lemma find_merge_row {A} (key : A → Z) (x : A) (rows : list A) :
  List.find (fun r => key r =? key x) (crud.merge_row key x rows) = Some x.
Proof.
  induction rows as [|r rows IH]; cbn.
  - by rewrite Z.eqb_refl.
  - destruct (key r =? key x) eqn:Hk; cbn.
    + by rewrite Z.eqb_refl.
    + by rewrite Hk.
Qed.

(** Counterexample to C2 as stated: one discovery update whose payload is
    truthy in every field.  The stored coordinate is the point literal
    built from the payload, not the payload text; the stored video paths
    and address are the old ones. *)
Lemma update_truthy_fields_not_copied :
  let old := sample.discovery 1 1 1 in
  let payload := sample.new_discovery 1 in
  let merged := discovery_api.merge_discovery old payload in
  schemas.d_coordinate_gps payload = Some "12.5 41.9"
  ∧ geom_desc (models.di_coordinate_gps merged) = "POINT (12.5 41.9)"
  ∧ geom_desc (models.di_coordinate_gps merged) ≠ "12.5 41.9"
  ∧ truthy_list (schemas.d_video_paths payload) = true
  ∧ models.di_video_paths merged ≠ schemas.d_video_paths payload
  ∧ truthy_str (schemas.d_address payload) = true
  ∧ models.di_address merged ≠ schemas.d_address payload.
Proof. cbn. repeat split; discriminate. Qed.

(** C2, amended: a partial update overwrites a field with a truthy payload
    value and keeps the stored value for a falsy one, for the six tourist
    fields and for the title, description, preview image, image paths,
    state_id and kind_id of a discovery; a truthy discovery coordinate is
    stored as the point literal built from it; every falsy payload field
    leaves the stored field unchanged; and a successful update persists
    exactly the merged entity under the same id. *)
Theorem partial_update_merge {F : PyFloat} {G : PostGIS} (db : Database)
    (new_name new_surname new_email new_img_profile new_telephone : string)
    (new_state_id : option Z) (me : schemas.TouristUser)
    (old_tourist : models.TouristUser)
    (discovery_id : Z) (payload : schemas.DiscoveryBase)
    (old_discovery : models.Discovery) :
  crud.get_tourist_user db (schemas.tourist_id me) = Some old_tourist →
  crud.get_discovery db discovery_id = Some old_discovery →
  let t := tourist_api.merge_my_info old_tourist new_name new_surname
             new_email new_img_profile new_state_id new_telephone in
  let d := discovery_api.merge_discovery old_discovery payload in
  (overwrites_or_keeps truthy_str new_name
     (models.tu_name old_tourist) (models.tu_name t)
   ∧ overwrites_or_keeps truthy_str new_surname
       (models.tu_surname old_tourist) (models.tu_surname t)
   ∧ overwrites_or_keeps truthy_str new_email
       (models.tu_email old_tourist) (models.tu_email t)
   ∧ overwrites_or_keeps truthy_str new_img_profile
       (models.tu_img_profile old_tourist) (models.tu_img_profile t)
   ∧ overwrites_or_keeps truthy_str new_telephone
       (models.tu_telephone old_tourist) (models.tu_telephone t)
   ∧ (∀ s, new_state_id = Some s → truthy_int s = true →
           models.tu_state_id t = s)
   ∧ (truthy_opt truthy_int new_state_id = false →
      models.tu_state_id t = models.tu_state_id old_tourist))
  ∧ (overwrites_or_keeps truthy_str (schemas.d_title payload)
       (models.di_title old_discovery) (models.di_title d)
     ∧ overwrites_or_keeps truthy_str (schemas.d_description payload)
         (models.di_description old_discovery) (models.di_description d)
     ∧ overwrites_or_keeps truthy_str (schemas.d_img_preview_path payload)
         (models.di_img_preview_path old_discovery)
         (models.di_img_preview_path d)
     ∧ overwrites_or_keeps truthy_list (schemas.d_img_paths payload)
         (models.di_img_paths old_discovery) (models.di_img_paths d)
     ∧ overwrites_or_keeps truthy_int (schemas.d_state_id payload)
         (models.di_state_id old_discovery) (models.di_state_id d)
     ∧ overwrites_or_keeps truthy_int (schemas.d_kind_id payload)
         (models.di_kind_id old_discovery) (models.di_kind_id d)
     ∧ (∀ c, schemas.d_coordinate_gps payload = Some c →
             truthy_str c = true →
             models.di_coordinate_gps d
             = GeomText (discovery_api.point_literal c))
     ∧ (truthy_opt truthy_str (schemas.d_coordinate_gps payload) = false →
        models.di_coordinate_gps d = models.di_coordinate_gps old_discovery)
     ∧ (truthy_list (schemas.d_video_paths payload) = false →
        models.di_video_paths d = models.di_video_paths old_discovery)
     ∧ (truthy_str (schemas.d_address payload) = false →
        models.di_address d = models.di_address old_discovery))
  ∧ (∀ ok db',
       tourist_api.update_my_info new_name new_surname new_email
         new_img_profile new_state_id new_telephone me db = Ok (ok, db') →
       crud.get_tourist_user db' (schemas.tourist_id me) = Some t)
  ∧ (∀ ok db',
       discovery_api.update discovery_id payload db = Ok (ok, db') →
       ∃ g, crud.flush_geom (models.di_coordinate_gps d) = inr g
            ∧ crud.get_discovery db' discovery_id
              = Some (crud.with_di_id_geom discovery_id g d)).
Proof.
  intros Htourist Hdiscovery t d.
  assert (Htid : models.tu_id old_tourist = schemas.tourist_id me).
  { apply find_some_elem in Htourist as [_ Heq]. by apply Z.eqb_eq. }
  assert (Hdid : models.di_id old_discovery = discovery_id).
  { apply find_some_elem in Hdiscovery as [_ Heq]. by apply Z.eqb_eq. }
  split; [|split; [|split]].
  - repeat split; try apply overwrites_or_keeps_if.
    + intros s -> Hs. cbn. by rewrite Hs.
    + destruct new_state_id as [s|]; cbn; [|done]. by intros ->.
  - repeat split; try apply overwrites_or_keeps_if.
    + intros c Hc Htruthy. cbn. by rewrite Hc, Htruthy.
    + destruct (schemas.d_coordinate_gps payload) as [c|] eqn:Hc; cbn;
        rewrite Hc; [|done]. by intros ->.
    + cbn. by destruct (truthy_list _).
  - intros ok db'. unfold tourist_api.update_my_info.
    destruct (negb (tourist_api.valid_new_state_id new_state_id)); [done|].
    rewrite Htourist. fold t. unfold crud.update.
    destruct (crud.email_taken _ _ _); [done|]. intros [= _ <-].
    unfold crud.get_tourist_user. cbn [tourist_users set_tourist_users].
    rewrite <- Htid. change (models.tu_id old_tourist) with (models.tu_id t).
    apply find_merge_row.
  - intros ok db'. unfold discovery_api.update. rewrite Hdiscovery. fold d.
    unfold crud.update_dirty, crud.flush.
    destruct (crud.flush_geom (models.di_coordinate_gps d)) as [e|g];
      [done|].
    intros [= _ <-]. exists g. split; [done|].
    unfold crud.get_discovery. cbn [discoveries set_discoveries].
    change (models.di_id d) with (models.di_id old_discovery).
    rewrite Hdid.
    apply (find_merge_row models.di_id (crud.with_di_id_geom discovery_id g d)).
Qed.

Lemma partial_update_merge_witness :
  ∃ db',
    tourist_api.update_my_info "Grace" "" "" "" None "" sample.me sample.db
    = Ok (true, db')
    ∧ (models.tu_name <$> crud.get_tourist_user db' 5) = Some "Grace"
    ∧ (models.tu_surname <$> crud.get_tourist_user db' 5) = Some "L".
Proof.
  pose proof (@partial_update_merge sample.pyfloat sample.postgis sample.db
                "Grace" "" "" "" "" None sample.me
                (sample.tourist 5 "ada@example.org" 1) 1
                (sample.new_discovery 1) (sample.discovery 1 1 1)
                eq_refl eq_refl) as (_ & _ & Hstored & _).
  eexists. split; [reflexivity|].
  pose proof (Hstored true _ eq_refl) as Hrow.
  change (schemas.tourist_id sample.me) with 5 in Hrow.
  rewrite Hrow. by split.
Defined.

(* ===================================================================== *)
(** * Further properties of the code                                      *)
(* ===================================================================== *)

(** ** The extraction pattern *)

Lemma span_group_spec (s g tl : string) :
  re.span_group s = (g, tl) →
  s = g +:+ tl ∧ occurs re.close_paren g = false
  ∧ (tl = EmptyString ∨ ∃ tl', tl = String re.close_paren tl').
Proof.
  revert g tl. induction s as [|c s IH]; intros g tl; cbn [re.span_group].
  - intros [= <- <-]. repeat split. by left.
  - destruct (Ascii.eqb_spec c re.close_paren) as [->|Hc].
    + intros [= <- <-]. repeat split. right. by eexists.
    + destruct (re.span_group s) as [g' tl'] eqn:Hs. intros [= <- <-].
      destruct (IH g' tl' eq_refl) as (-> & Hg & Htl).
      split; [done|]. split; [|done]. cbn. rewrite Hg.
      by rewrite (proj2 (Ascii.eqb_neq c re.close_paren) Hc).
Qed.

Lemma search_group_sound (s g : string) :
  re.search_group s = Some g →
  g ≠ EmptyString ∧ occurs re.close_paren g = false
  ∧ ∃ pre post,
      s = pre +:+ String re.open_paren (g +:+ String re.close_paren post).
Proof.
  induction s as [|c s IH]; cbn [re.search_group]; [done|].
  assert (Hrest : re.search_group s = Some g →
            g ≠ EmptyString ∧ occurs re.close_paren g = false
            ∧ ∃ pre post, String c s
                = pre +:+ String re.open_paren
                            (g +:+ String re.close_paren post)).
  { intros Hs. destruct (IH Hs) as (Hne & Hg & pre & post & ->).
    split; [done|]. split; [done|]. by exists (String c pre), post. }
  destruct (Ascii.eqb_spec c re.open_paren) as [->|Hc]; [|exact Hrest].
  destruct (re.span_group s) as [g' tl] eqn:Hs.
  destruct g' as [|g0 g']; [exact Hrest|].
  destruct tl as [|t tl]; [exact Hrest|].
  intros [= <-]. destruct (span_group_spec _ _ _ Hs) as (-> & Hg & Htl).
  split; [done|]. split; [done|].
  destruct Htl as [[=]|[tl' [= -> ->]]]. by exists EmptyString, tl'.
Qed.

Lemma search_group_complete (pre g post : string) :
  g ≠ EmptyString → occurs re.close_paren g = false →
  is_Some (re.search_group
             (pre +:+ String re.open_paren
                        (g +:+ String re.close_paren post))).
Proof.
  intros Hne Hg. induction pre as [|c pre IH].
  - change (is_Some (re.search_group
              (String re.open_paren (g +:+ String re.close_paren post)))).
    cbn [re.search_group]. rewrite Ascii.eqb_refl.
    rewrite (span_group_run g post Hg). destruct g; [done|]. by eexists.
  - change (is_Some (re.search_group
              (String c (pre +:+ String re.open_paren
                                   (g +:+ String re.close_paren post))))).
    cbn [re.search_group]. destruct (Ascii.eqb c re.open_paren); [|exact IH].
    destruct (re.span_group _) as [[|g0 g'] [|t tl]]; try exact IH.
    by eexists.
Qed.

(** X1: on a string, [extract_coordinates] never raises; a non-empty
    answer stands in the input between an opening and a closing
    parenthesis and holds no closing parenthesis itself; and the answer is
    empty exactly when the input has no opening parenthesis followed by a
    non-empty run free of closing parentheses and then a closing one. *)
Theorem extract_coordinates_matches (s : string) :
  ∃ g, discovery_api.extract_coordinates (Some s) = Ok g
       ∧ occurs re.close_paren g = false
       ∧ (g ≠ EmptyString →
          ∃ pre post,
            s = pre +:+ String re.open_paren
                          (g +:+ String re.close_paren post))
       ∧ (g = EmptyString ↔
          ¬ ∃ pre g' post,
              g' ≠ EmptyString ∧ occurs re.close_paren g' = false
              ∧ s = pre +:+ String re.open_paren
                              (g' +:+ String re.close_paren post)).
Proof.
  unfold discovery_api.extract_coordinates.
  destruct (re.search_group s) as [g|] eqn:Hs.
  - destruct (search_group_sound s g Hs) as (Hne & Hg & pre & post & Heq).
    exists g. split; [done|]. split; [done|]. split; [by exists pre, post|].
    split; [done|]. intros Hno. exfalso. apply Hno. by exists pre, g, post.
  - exists EmptyString. split; [done|]. split; [done|]. split; [done|].
    split; [|done]. intros _ (pre & g' & post & Hne & Hg & ->).
    destruct (search_group_complete pre g' post Hne Hg) as [x Hx]. congruence.
Qed.

(** X2: when the text before the first opening parenthesis holds none, and
    a non-empty run without closing parenthesis follows it up to a closing
    one, [extract_coordinates] answers that run, whatever comes after. *)
Theorem extract_coordinates_first_group (pre g post : string) :
  occurs re.open_paren pre = false →
  occurs re.close_paren g = false →
  g ≠ EmptyString →
  discovery_api.extract_coordinates
    (Some (pre +:+ String re.open_paren (g +:+ String re.close_paren post)))
  = Ok g.
Proof.
  intros Hpre Hg Hne. unfold discovery_api.extract_coordinates.
  by rewrite (search_group_first pre g post Hpre Hg Hne).
Qed.

Lemma extract_coordinates_first_group_witness :
  discovery_api.extract_coordinates (Some "POINT Z (1 2 3) (4)") = Ok "1 2 3".
Proof.
  apply (extract_coordinates_first_group "POINT Z " "1 2 3" " (4)");
    [reflexivity|reflexivity|discriminate].
Defined.

(** ** The decode path *)

Lemma unhexlify_length_aux (s : string) :
  (∀ bs, binascii.unhexlify s = Some bs →
         String.length s = (2 * length bs)%nat)
  ∧ (∀ c bs, binascii.unhexlify (String c s) = Some bs →
             S (String.length s) = (2 * length bs)%nat).
Proof.
  induction s as [|a s [IH1 IH2]].
  - split; [by intros bs [= <-]|done].
  - split; [intros bs; apply IH2|].
    intros c bs. cbn [binascii.unhexlify].
    destruct (binascii.hex_digit c); [|done].
    destruct (binascii.hex_digit a); [|done].
    destruct (binascii.unhexlify s) as [bs'|]; [|done].
    intros [= <-]. cbn [String.length length]. rewrite (IH1 bs' eq_refl). lia.
Qed.

Lemma unhexlify_odd_length (s : string) :
  Nat.odd (String.length s) = true → binascii.unhexlify s = None.
Proof.
  intros Hodd. destruct (binascii.unhexlify s) as [bs|] eqn:Hs; [|done].
  apply (proj1 (unhexlify_length_aux s)) in Hs. rewrite Hs in Hodd.
  by rewrite Nat.odd_mul, andb_false_l in Hodd.
Qed.

Lemma decode_raises_TypeError `{Shapely} (geom_hex : string) (e : exn) :
  discovery_api.decode geom_hex = Raise e →
  e = TypeError "expected string or bytes-like object".
Proof.
  unfold discovery_api.decode, discovery_api.extract_coordinates.
  destruct (schemas.ewkb_to_wkt geom_hex) as [text|]; [|by intros [= <-]].
  by destruct (re.search_group text).
Qed.

(** X3: the decode path of a discovery read raises [TypeError] exactly when
    the stored text is not hex, or the geometry library cannot load its
    bytes, or the loaded geometry is empty; in every other case it answers
    the group found in the well-known text, or the empty string when the
    text has none. *)
Theorem decode_outcome `{Shapely} (geom_hex : string) :
  (discovery_api.decode geom_hex
   = Raise (TypeError "expected string or bytes-like object")
   ↔ binascii.unhexlify geom_hex = None
     ∨ ∃ bytes, binascii.unhexlify geom_hex = Some bytes
                ∧ (loads bytes = None
                   ∨ ∃ a, loads bytes = Some a ∧ is_empty a = true))
  ∧ (∀ c, discovery_api.decode geom_hex = Ok c ↔
          ∃ bytes a, binascii.unhexlify geom_hex = Some bytes
                     ∧ loads bytes = Some a ∧ is_empty a = false
                     ∧ c = default "" (re.search_group (wkt a)))
  ∧ (∀ e, discovery_api.decode geom_hex = Raise e →
          e = TypeError "expected string or bytes-like object").
Proof.
  unfold discovery_api.decode, schemas.ewkb_to_wkt,
    discovery_api.extract_coordinates.
  destruct (binascii.unhexlify geom_hex) as [bytes|].
  - destruct (loads bytes) as [a|] eqn:Hl.
    + destruct (is_empty a) eqn:He; cbn.
      * split; [|split]; [|by intros c; split; [|intros (?&?&[= <-]&?&?&?);
                                                  congruence]|by intros e [= <-]].
        split; [|done]. intros _. right. exists bytes. split; [done|].
        right. by exists a.
      * split; [|split].
        -- split; [by destruct (re.search_group _)|].
           intros [[=]|(b & [= <-] & [Hn|(a' & Ha & He')])]; congruence.
        -- intros c. split.
           ++ intros Hc. exists bytes, a. repeat split; try done.
              destruct (re.search_group (wkt a)); by injection Hc as <-.
           ++ intros (b & a' & [= <-] & Ha & _ & ->).
              assert (a' = a) as -> by congruence.
              by destruct (re.search_group (wkt a)).
        -- intros e. by destruct (re.search_group _).
    + cbn. split; [|split];
        [|by intros c; split; [|intros (?&?&[= <-]&?&?); congruence]
         |by intros e [= <-]].
      split; [|done]. intros _. right. exists bytes. split; [done|]. by left.
  - cbn. split; [|split];
      [|by intros c; split; [|intros (?&?&[=]&?)]|by intros e [= <-]].
    split; [|done]. intros _. by left.
Qed.

(** X4: a stored geometry text of odd length makes the decode path raise
    [TypeError], whatever the geometry library does. *)
Theorem decode_odd_length_raises `{Shapely} (geom_hex : string) :
  Nat.odd (String.length geom_hex) = true →
  discovery_api.decode geom_hex
  = Raise (TypeError "expected string or bytes-like object").
Proof.
  intros Hodd. apply decode_unparseable. unfold schemas.ewkb_to_wkt.
  by rewrite (unhexlify_odd_length geom_hex Hodd).
Qed.

Lemma decode_odd_length_raises_witness :
  @discovery_api.decode sample.shapely_text "0101a"
  = Raise (TypeError "expected string or bytes-like object").
Proof.
  apply (@decode_odd_length_raises sample.shapely_text "0101a"). reflexivity.
Defined.

Lemma mapM_raise {A B} (f : A → result B) (e : exn) (l : list A) (x : A) :
  (∀ y e', f y = Raise e' → e' = e) →
  x ∈ l → f x = Raise e → mapM f l = Raise e.
Proof.
  intros Hsame Hin Hx. induction l as [|y l IH]; [by apply elem_of_nil in Hin|].
  cbn. destruct (f y) as [b|e'] eqn:Hy; cbn.
  - apply elem_of_cons in Hin as [->|Hin]; [congruence|].
    by rewrite (IH Hin).
  - by rewrite (Hsame y e' Hy).
Qed.

(** X5: one row with an undecodable geometry on the requested page makes
    the whole discovery list request raise [TypeError]; the rows that do
    decode are not returned. *)
Theorem get_discoveries_aborts_on_bad_row {S : Shapely} (db : Database)
    (cursor : option Z)
    (limit category : Z) (all : bool) (rows : list models.Discovery)
    (d : models.Discovery) :
  0 < limit → valid_cursor cursor = true →
  discovery_api.valid_category category = true →
  crud.get_discoveries db cursor limit category all = Ok rows →
  d ∈ take (Z.to_nat limit) rows →
  schemas.ewkb_to_wkt (geom_desc (models.di_coordinate_gps d)) = None →
  discovery_api.get_discoveries cursor limit category all db
  = Raise (TypeError "expected string or bytes-like object").
Proof.
  intros Hlimit Hcursor Hcat Hrows Hd Hbad.
  unfold discovery_api.get_discoveries.
  rewrite Hcursor, Hcat. unfold valid_limit.
  rewrite (proj2 (Z.ltb_lt 0 limit) Hlimit). cbn [negb].
  rewrite Hrows. cbn [mbind result_bind].
  assert (Hslice : slice_to rows limit = take (Z.to_nat limit) rows).
  { unfold slice_to. by rewrite (proj2 (Z.leb_le 0 limit)) by lia. }
  rewrite Hslice.
  destruct rows as [|r rows]; [by rewrite take_nil in Hd; apply elem_of_nil in Hd|].
  cbn [truthy_list].
  rewrite (mapM_raise discovery_api.render
             (TypeError "expected string or bytes-like object") _ d); [done| |done|].
  - intros y e'. unfold discovery_api.render.
    destruct (discovery_api.decode _) as [c|e0] eqn:Hc; cbn; [done|].
    intros [= <-]. by apply decode_raises_TypeError in Hc.
  - unfold discovery_api.render. by rewrite (decode_unparseable _ Hbad).
Qed.

Lemma get_discoveries_aborts_on_bad_row_witness :
  @discovery_api.get_discoveries sample.shapely None 2 1 true sample.db
  = Raise (TypeError "expected string or bytes-like object").
Proof.
  apply (@get_discoveries_aborts_on_bad_row sample.shapely sample.db
           None 2 1 true
           [sample.discovery 1 1 1; sample.discovery 3 2 1]
           (sample.discovery 3 2 1));
    try reflexivity.
  by apply (list_elem_of_lookup_2 _ 1%nat).
Defined.

(** ** Pages of experiences *)

Local Abbreviation published db :=
  (order_by models.ex_id
     (filter (fun e => models.ex_state_id e = 1) (experiences db))).

Lemma get_experiences_outcome (db : Database) (cursor : option Z)
    (limit : Z) :
  0 < limit → valid_cursor cursor = true →
  let matching := drop (Z.to_nat (default 0 cursor)) (published db) in
  let n := Z.to_nat limit in
  (matching = [] →
   experiences_api.get_experiences cursor limit db
   = Raise (HTTPException 404 "No experiences found."))
  ∧ (matching ≠ [] →
     ∃ page,
       experiences_api.get_experiences cursor limit db = Ok page
       ∧ schemas.er_items page
         = map schemas.Experience_from_orm (take n matching)
       ∧ (schemas.er_has_more page = true ↔ (n < length matching)%nat)
       ∧ schemas.er_cursor page = models.ex_id <$> last (take n matching)).
Proof.
  intros Hlimit Hcursor matching n.
  assert (Hfetch : crud.get_experiences db cursor limit
                   = Ok (take (S n) matching)).
  { unfold crud.get_experiences. by apply offset_limit_fetch. }
  unfold experiences_api.get_experiences.
  rewrite Hcursor. unfold valid_limit.
  rewrite (proj2 (Z.ltb_lt 0 limit) Hlimit). cbn [negb].
  rewrite Hfetch. cbn [mbind result_bind]. split.
  - intros ->. by rewrite take_nil.
  - intros Hne.
    destruct (page_of_fetch matching limit Hlimit Hne)
      as (Htruthy & Hslice & Hpage & Hmore). fold n in Htruthy, Hslice, Hpage, Hmore.
    rewrite Htruthy, Hslice, Hpage. eexists. split; [reflexivity|]. cbn.
    split; [done|]. split; [|done].
    rewrite Hmore. apply lookup_lt_is_Some.
Qed.

(** X6: a page of experiences reports [has_more] exactly when the request
    for the offset that follows it ([offset + limit], with the same limit)
    returns a page instead of failing with 404. *)
Theorem has_more_iff_next_offset_page (db : Database) (cursor : option Z)
    (limit : Z) (page : schemas.ExperienceResponse) :
  0 < limit → valid_cursor cursor = true →
  experiences_api.get_experiences cursor limit db = Ok page →
  (schemas.er_has_more page = true
   ↔ ∃ next,
       experiences_api.get_experiences
         (Some (default 0 cursor + limit)) limit db = Ok next).
Proof.
  intros Hlimit Hcursor Hpage.
  assert (Hpos : 0 <= default 0 cursor).
  { destruct cursor as [c|]; cbn in *; [by apply Z.leb_le|done]. }
  destruct (get_experiences_outcome db cursor limit Hlimit Hcursor)
    as [Hnone Hsome].
  destruct (get_experiences_outcome db (Some (default 0 cursor + limit))
              limit Hlimit) as [Hnone' Hsome'].
  { cbn. apply Z.leb_le. lia. }
  change (default 0 (Some (default 0 cursor + limit)))
    with (default 0 cursor + limit) in Hnone', Hsome'.
  rewrite Z2Nat.inj_add in Hnone', Hsome' by lia.
  rewrite <- drop_drop in Hnone', Hsome'.
  set (matching := drop (Z.to_nat (default 0 cursor)) (published db)) in *.
  destruct (decide (matching = [])) as [Hm|Hm].
  { rewrite (Hnone Hm) in Hpage. done. }
  destruct (Hsome Hm) as (page' & Hpage' & _ & Hmore & _).
  assert (page' = page) as -> by congruence.
  rewrite Hmore. split.
  - intros Hlt. destruct Hsome' as (next & Hnext & _).
    + intros Hnil. apply (f_equal length) in Hnil.
      rewrite length_drop in Hnil. cbn in Hnil. lia.
    + by exists next.
  - intros [next Hnext].
    destruct (decide (drop (Z.to_nat limit) matching = [])) as [Hd|Hd].
    + rewrite (Hnone' Hd) in Hnext. done.
    + destruct (decide (Z.to_nat limit < length matching)%nat); [done|].
      exfalso. apply Hd. apply drop_ge. lia.
Qed.

Lemma has_more_iff_next_offset_page_witness :
  ∃ page next,
    experiences_api.get_experiences None 2 sample.db = Ok page
    ∧ schemas.er_has_more page = true
    ∧ experiences_api.get_experiences (Some 2) 2 sample.db = Ok next.
Proof.
  eexists. 
  destruct (proj1 (has_more_iff_next_offset_page sample.db None 2 _
                     eq_refl eq_refl eq_refl) eq_refl) as [next Hnext].
  exists next. split; [reflexivity|]. split; [reflexivity|exact Hnext].
Defined.

(** X7: two pages of experiences at consecutive offsets ([offset], then
    [offset + limit]) hold, in order, exactly the items of the one page of
    twice the size at [offset]; that page ends and continues as the second
    one does. *)
Theorem consecutive_pages_tile (db : Database) (cursor : option Z)
    (limit : Z) (first second : schemas.ExperienceResponse) :
  0 < limit → valid_cursor cursor = true →
  experiences_api.get_experiences cursor limit db = Ok first →
  experiences_api.get_experiences (Some (default 0 cursor + limit)) limit db
  = Ok second →
  ∃ both,
    experiences_api.get_experiences cursor (2 * limit) db = Ok both
    ∧ schemas.er_items both
      = (schemas.er_items first ++ schemas.er_items second)%list
    ∧ schemas.er_has_more both = schemas.er_has_more second
    ∧ schemas.er_cursor both = schemas.er_cursor second.
Proof.
  intros Hlimit Hcursor Hfirst Hsecond.
  assert (Hpos : 0 <= default 0 cursor).
  { destruct cursor as [c|]; cbn in *; [by apply Z.leb_le|done]. }
  destruct (get_experiences_outcome db cursor limit Hlimit Hcursor)
    as [Hnone1 Hsome1].
  destruct (get_experiences_outcome db (Some (default 0 cursor + limit))
              limit Hlimit) as [Hnone2 Hsome2].
  { cbn. apply Z.leb_le. lia. }
  destruct (get_experiences_outcome db cursor (2 * limit)
              ltac:(lia) Hcursor) as [Hnone3 Hsome3].
  change (default 0 (Some (default 0 cursor + limit)))
    with (default 0 cursor + limit) in Hnone2, Hsome2.
  rewrite Z2Nat.inj_add in Hnone2, Hsome2 by lia.
  rewrite <- drop_drop in Hnone2, Hsome2.
  replace (Z.to_nat (2 * limit)) with (Z.to_nat limit + Z.to_nat limit)%nat
    in Hsome3 by lia.
  set (n := Z.to_nat limit) in *.
  set (matching := drop (Z.to_nat (default 0 cursor)) (published db)) in *.
  destruct (decide (matching = [])) as [Hm|Hm].
  { rewrite (Hnone1 Hm) in Hfirst. done. }
  destruct (decide (drop n matching = [])) as [Hd|Hd].
  { rewrite (Hnone2 Hd) in Hsecond. done. }
  destruct (Hsome1 Hm) as (p1 & Hp1 & Hitems1 & _ & _).
  destruct (Hsome2 Hd) as (p2 & Hp2 & Hitems2 & Hmore2 & Hcur2).
  destruct (Hsome3 Hm) as (p3 & Hp3 & Hitems3 & Hmore3 & Hcur3).
  assert (p1 = first) as -> by congruence.
  assert (p2 = second) as -> by congruence.
  assert (Htile : take (n + n) matching
                  = (take n matching ++ take n (drop n matching))%list)
    by by rewrite take_take_drop.
  exists p3. split; [done|]. split; [|split].
  - rewrite Hitems3, Hitems1, Hitems2, Htile. apply map_app.
  - apply eq_true_iff_eq. rewrite Hmore3, Hmore2, length_drop. lia.
  - rewrite Hcur3, Hcur2, Htile. f_equal.
    rewrite last_app.
    destruct (last (take n (drop n matching))) as [x|] eqn:Hlast; [done|].
    exfalso. apply last_None in Hlast. apply take_nil_inv in Hlast as [Hn|Hnil];
      [lia|done].
Qed.

Lemma consecutive_pages_tile_witness :
  ∃ both,
    experiences_api.get_experiences None 2 sample.db = Ok both
    ∧ map schemas.e_id (schemas.er_items both) = [1; 3].
Proof.
  destruct (consecutive_pages_tile sample.db None 1 _ _
              eq_refl eq_refl eq_refl eq_refl)
    as (both & Hboth & Hitems & _).
  exists both. split; [exact Hboth|]. by rewrite Hitems.
Defined.

(** X8: a request for a page of experiences whose offset and [limit + 1]
    fit the store's 64-bit OFFSET and LIMIT fails with 404 exactly when its
    offset is not below the number of published experiences. *)
Theorem page_not_found_iff_offset_past_end (db : Database)
    (cursor : option Z) (limit : Z) :
  0 < limit → valid_cursor cursor = true →
  in_bigint (default 0 cursor) = true → in_bigint (limit + 1) = true →
  (experiences_api.get_experiences cursor limit db
   = Raise (HTTPException 404 "No experiences found.")
   ↔ (length (filter (fun e => models.ex_state_id e = 1%Z) (experiences db))
      ≤ Z.to_nat (default 0%Z cursor))%nat).
Proof.
  intros Hlimit Hcursor _ _.
  destruct (get_experiences_outcome db cursor limit Hlimit Hcursor)
    as [Hnone Hsome].
  rewrite <- (Permutation_length (order_by_perm models.ex_id _)).
  split.
  - intros Hraise.
    destruct (decide (drop (Z.to_nat (default 0 cursor)) (published db) = []))
      as [Hd|Hd].
    + by apply drop_nil_inv.
    + destruct (Hsome Hd) as (page & Hpage & _). congruence.
  - intros Hle. apply Hnone. by apply drop_ge.
Qed.

Lemma page_not_found_iff_offset_past_end_witness :
  experiences_api.get_experiences (Some 3) 2 sample.db
  = Raise (HTTPException 404 "No experiences found.").
Proof.
  apply (proj2 (page_not_found_iff_offset_past_end sample.db (Some 3) 2
                  eq_refl eq_refl eq_refl eq_refl)).
  vm_compute. lia.
Defined.

(** X9: when the published experiences carry the ids 1, 2, ..., n without
    a gap, the cursor a page returns is the offset of the row after the
    page (its own offset plus its number of items), so a client that sends
    it back continues right after the page. *)
Theorem dense_ids_cursor_is_next_offset (db : Database) (cursor : option Z)
    (limit : Z) (count : nat) (page : schemas.ExperienceResponse) :
  0 < limit → valid_cursor cursor = true →
  models.ex_id <$> published db = Z.of_nat <$> seq 1 count →
  experiences_api.get_experiences cursor limit db = Ok page →
  schemas.er_cursor page
  = Some (default 0 cursor + Z.of_nat (length (schemas.er_items page))).
Proof.
  intros Hlimit Hcursor Hdense Hpage.
  assert (Hpos : 0 <= default 0 cursor).
  { destruct cursor as [c|]; cbn in *; [by apply Z.leb_le|done]. }
  destruct (get_experiences_outcome db cursor limit Hlimit Hcursor)
    as [Hnone Hsome].
  set (o := Z.to_nat (default 0 cursor)) in *.
  set (n := Z.to_nat limit) in *.
  set (matching := drop o (published db)) in *.
  destruct (decide (matching = [])) as [Hm|Hm].
  { rewrite (Hnone Hm) in Hpage. done. }
  destruct (Hsome Hm) as (p & Hp & Hitems & _ & Hcur).
  assert (p = page) as -> by congruence.
  rewrite Hcur, Hitems, length_map, last_lookup.
  set (k := length (take n matching)).
  assert (Hk : (0 < k)%nat).
  { unfold k. rewrite length_take. destruct matching; [done|].
    cbn [length]. lia. }
  assert (Hkn : (k ≤ n)%nat) by (unfold k; rewrite length_take; lia).
  rewrite lookup_take_lt by lia. unfold matching. rewrite lookup_drop.
  rewrite <- list_lookup_fmap, Hdense, list_lookup_fmap.
  assert (Hlen : (o + k ≤ count)%nat).
  { apply (f_equal length) in Hdense.
    rewrite !length_fmap, length_seq in Hdense.
    assert (Hmlen : (0 < length matching)%nat)
      by (destruct matching; [done|cbn [length]; lia]).
    unfold matching in Hmlen. rewrite length_drop in Hmlen.
    unfold k, matching. rewrite length_take, length_drop. lia. }
  rewrite lookup_seq_lt by lia. cbn. f_equal. lia.
Qed.

Lemma dense_ids_cursor_is_next_offset_witness :
  ∃ page,
    experiences_api.get_experiences (Some 1) 1
      (set_experiences sample.db
         [sample.experience 2 1; sample.experience 1 1; sample.experience 3 1])
    = Ok page
    ∧ schemas.er_cursor page = Some 2.
Proof.
  eexists. split; [reflexivity|].
  apply (dense_ids_cursor_is_next_offset
           (set_experiences sample.db
              [sample.experience 2 1; sample.experience 1 1;
               sample.experience 3 1])
           (Some 1) 1 3 _ eq_refl eq_refl eq_refl eq_refl).
Defined.

(** ** Rows by key: creation, rewriting, removal *)

Lemma existsb_false_Forall {A} (p : A → bool) (l : list A) :
  existsb p l = false ↔ Forall (fun x => p x = false) l.
Proof.
  induction l as [|x l IH]; cbn; [by split; [constructor|]|].
  rewrite orb_false_iff, IH. split.
  - intros [Hx Hl]. by constructor.
  - by inversion 1.
Qed.

Lemma key_in_use_false {A} (key : A → Z) (i : Z) (rows : list A) :
  key_in_use key i rows = false ↔ Forall (fun r => key r ≠ i) rows.
Proof.
  unfold key_in_use. rewrite existsb_false_Forall. apply Forall_iff.
  intros r. apply Z.eqb_neq.
Qed.

Lemma find_snoc_absent {A} (p : A → bool) (l : list A) (x : A) :
  Forall (fun y => p y = false) l →
  List.find p (l ++ [x]) = if p x then Some x else None.
Proof.
  induction 1 as [|y l Hy Hl IH]; cbn; [done|]. by rewrite Hy.
Qed.

Lemma find_snoc_other {A} (p : A → bool) (l : list A) (x : A) :
  p x = false → List.find p (l ++ [x]) = List.find p l.
Proof.
  intros Hx. induction l as [|y l IH]; cbn; [by rewrite Hx|].
  by destruct (p y).
Qed.

Lemma find_merge_row_other {A} (key : A → Z) (x : A) (rows : list A) (j : Z) :
  j ≠ key x →
  List.find (fun r => key r =? j) (crud.merge_row key x rows)
  = List.find (fun r => key r =? j) rows.
Proof.
  intros Hj. induction rows as [|r rows IH]; cbn.
  - by rewrite (proj2 (Z.eqb_neq (key x) j)) by done.
  - destruct (Z.eqb_spec (key r) (key x)) as [Heq|Hne]; cbn.
    + rewrite Heq. by rewrite (proj2 (Z.eqb_neq (key x) j)) by done.
    + by rewrite IH.
Qed.

Lemma find_filter_key_gone {A} (key : A → Z) (i : Z) (rows : list A) :
  List.find (fun r => key r =? i) (filter (fun r => key r ≠ i) rows) = None.
Proof.
  apply find_none_iff, Forall_forall. intros r Hr.
  apply list_elem_of_filter in Hr as [Hne _]. by apply Z.eqb_neq.
Qed.

Lemma find_filter_key_other {A} (key : A → Z) (i j : Z) (rows : list A) :
  j ≠ i →
  List.find (fun r => key r =? j) (filter (fun r => key r ≠ i) rows)
  = List.find (fun r => key r =? j) rows.
Proof.
  intros Hj. induction rows as [|r rows IH]; [done|].
  destruct (decide (key r = i)) as [Hr|Hr].
  - rewrite filter_cons_False by (intros ?; done). cbn.
    rewrite (proj2 (Z.eqb_neq (key r) j)) by congruence. exact IH.
  - rewrite filter_cons_True by done. cbn. by rewrite IH.
Qed.

(** X10: an experience that [create] stored can be read back whole: the
    store assigned it an id no row carried before, the single read at that
    id (a positive one) answers the created fields, every other id reads
    as before, and ids that were unique stay unique. *)
Theorem create_then_get_experience (assigned_id : Z)
    (experience : schemas.ExperienceBase) (db db' : Database) (ok : bool) :
  experiences_api.create assigned_id experience db = Ok (ok, db') →
  0 < assigned_id →
  (∀ r, r ∈ experiences db → models.ex_id r ≠ assigned_id)
  ∧ experiences_api.get_experience assigned_id db'
    = Ok {| schemas.e_id := assigned_id; schemas.e_base := experience |}
  ∧ (∀ j, j ≠ assigned_id →
          crud.get_experience db' j = crud.get_experience db j)
  ∧ (NoDup (map models.ex_id (experiences db)) →
     NoDup (map models.ex_id (experiences db'))).
Proof.
  intros Hcreate Hpos.
  unfold experiences_api.create in Hcreate.
  destruct (_ || _); [done|]. unfold crud.create_experience in Hcreate.
  destruct (key_in_use models.ex_id assigned_id (experiences db)) eqn:Huse;
    [done|].
  apply key_in_use_false in Huse. injection Hcreate as _ <-.
  assert (Hnew : ∀ r, r ∈ experiences db → models.ex_id r ≠ assigned_id)
    by by apply Forall_forall.
  split; [exact Hnew|]. split; [|split].
  - unfold experiences_api.get_experience, experiences_api.valid_id.
    rewrite (proj2 (Z.ltb_lt 0 assigned_id) Hpos). cbn [negb].
    unfold crud.get_experience. cbn [experiences set_experiences].
    rewrite find_snoc_absent.
    + cbn. rewrite Z.eqb_refl. by destruct experience.
    + apply Forall_forall. intros r Hr. apply Z.eqb_neq. by apply Hnew.
  - intros j Hj. unfold crud.get_experience.
    cbn [experiences set_experiences]. apply find_snoc_other. cbn.
    by apply Z.eqb_neq.
  - intros Hnd. cbn [experiences set_experiences]. rewrite map_app. cbn.
    apply NoDup_app. split; [done|]. split; [|apply NoDup_singleton].
    intros x Hx Hx'. apply list_elem_of_singleton in Hx'. subst x.
    apply list_elem_of_fmap in Hx as (r & Hid & Hr). by apply (Hnew r Hr).
Qed.

Lemma create_then_get_experience_witness :
  ∃ db',
    experiences_api.create 10 (sample.new_experience 1) sample.db
    = Ok (true, db')
    ∧ experiences_api.get_experience 10 db'
      = Ok {| schemas.e_id := 10;
              schemas.e_base := sample.new_experience 1 |}.
Proof.
  eexists. split; [reflexivity|].
  apply (create_then_get_experience 10 (sample.new_experience 1) sample.db _
           true eq_refl eq_refl).
Defined.

(** X11: a discovery that [create] stored with the coordinate text [c]
    reads back, at the positive id the store assigned, with that same
    text, provided the geometry library renders what the store parsed from
    the point literal as that literal; the other fields read back as
    sent. *)
Theorem create_then_get_discovery {S : Shapely} {F : PyFloat} {G : PostGIS}
    (assigned_id : Z) (discovery : schemas.DiscoveryBase) (c : string)
    (db db' : Database) (ok : bool) :
  schemas.d_coordinate_gps discovery = Some c →
  occurs re.close_paren c = false →
  (∀ hex, ST_GeomFromText (discovery_api.point_literal c) = Some hex →
          schemas.ewkb_to_wkt hex = Some (discovery_api.point_literal c)) →
  discovery_api.create assigned_id discovery db = Ok (ok, db') →
  0 < assigned_id →
  discovery_api.get_discovery assigned_id db'
  = Ok {| schemas.r_id := assigned_id;
          schemas.r_title := schemas.d_title discovery;
          schemas.r_description := schemas.d_description discovery;
          schemas.r_img_preview_path := schemas.d_img_preview_path discovery;
          schemas.r_img_paths := schemas.d_img_paths discovery;
          schemas.r_video_paths := schemas.d_video_paths discovery;
          schemas.r_coordinate_gps := c;
          schemas.r_address := schemas.d_address discovery;
          schemas.r_kind_id := schemas.d_kind_id discovery;
          schemas.r_state_id := schemas.d_state_id discovery |}.
Proof.
  intros Hc Hclose Hlaw Hcreate Hpos.
  unfold discovery_api.create in Hcreate.
  destruct (_ || _); [done|]. unfold crud.create_discovery in Hcreate.
  rewrite Hc in Hcreate. cbn in Hcreate.
  destruct (ST_GeomFromText (discovery_api.point_literal c)) as [hex|] eqn:Hhex;
    [|done].
  destruct (key_in_use models.di_id assigned_id (discoveries db)) eqn:Huse;
    [done|].
  apply key_in_use_false in Huse. injection Hcreate as _ <-.
  unfold discovery_api.get_discovery, experiences_api.valid_id.
  rewrite (proj2 (Z.ltb_lt 0 assigned_id) Hpos). cbn [negb].
  unfold crud.get_discovery. cbn [discoveries set_discoveries].
  rewrite find_snoc_absent.
  - cbn [crud.with_di_id_geom models.di_id]. rewrite Z.eqb_refl.
    unfold discovery_api.render, discovery_api.decode. cbn.
    rewrite (Hlaw hex eq_refl).
    by rewrite (extract_coordinates_point_literal c Hclose).
  - apply Forall_forall. intros r Hr. apply Z.eqb_neq.
    rewrite Forall_forall in Huse. by apply Huse.
Qed.

Lemma create_then_get_discovery_witness :
  ∃ db' read,
    @discovery_api.create sample.pyfloat sample.postgis_text 4
      (sample.new_discovery 1) sample.db = Ok (true, db')
    ∧ @discovery_api.get_discovery sample.shapely_text 4 db' = Ok read
    ∧ schemas.r_coordinate_gps read = "12.5 41.9".
Proof.
  eexists _, _. split; [reflexivity|]. split.
  - apply (@create_then_get_discovery sample.shapely_text sample.pyfloat
             sample.postgis_text 4 (sample.new_discovery 1) "12.5 41.9"
             sample.db _ true eq_refl eq_refl).
    + by intros hex [= <-].
    + reflexivity.
    + reflexivity.
  - reflexivity.
Defined.

(** X12: deleting a discovery that does not exist fails with 404 and names
    the id; a delete that succeeds leaves no row under the id, so that a
    second delete of it fails with 404, leaves every other id reading as
    before, and touches no other table. *)
Theorem delete_discovery_effect (discovery_id : Z) (db : Database) :
  (crud.get_discovery db discovery_id = None →
   discovery_api.delete discovery_id db
   = Raise (HTTPException 404
              ("No discovery found with id: " +:+ pretty discovery_id)))
  ∧ (∀ ok db',
       discovery_api.delete discovery_id db = Ok (ok, db') →
       crud.get_discovery db' discovery_id = None
       ∧ (∀ j, j ≠ discovery_id →
               crud.get_discovery db' j = crud.get_discovery db j)
       ∧ (∃ e, discovery_api.delete discovery_id db' = Raise e
               ∧ is_NotFound e)
       ∧ experiences db' = experiences db
       ∧ tourist_users db' = tourist_users db
       ∧ host_users db' = host_users db
       ∧ tourist_user_likes db' = tourist_user_likes db).
Proof.
  unfold discovery_api.delete. split; [by intros ->|].
  intros ok db'.
  destruct (crud.get_discovery db discovery_id) as [d|] eqn:Hd; [|done].
  assert (Hid : models.di_id d = discovery_id).
  { apply find_some_elem in Hd as [_ Heq]. by apply Z.eqb_eq. }
  unfold crud.delete_discovery. rewrite Hid. intros [= _ <-].
  assert (Hgone : crud.get_discovery
            (set_discoveries db
               (filter (fun r => models.di_id r ≠ discovery_id)
                       (discoveries db))) discovery_id = None).
  { unfold crud.get_discovery. cbn [discoveries set_discoveries].
    apply (find_filter_key_gone models.di_id). }
  split; [exact Hgone|]. split; [|split; [|done]].
  - intros j Hj. unfold crud.get_discovery.
    cbn [discoveries set_discoveries].
    by apply (find_filter_key_other models.di_id).
  - rewrite Hgone. eexists. by split.
Qed.

Lemma delete_discovery_effect_witness :
  ∃ db',
    discovery_api.delete 2 sample.db = Ok (true, db')
    ∧ crud.get_discovery db' 2 = None
    ∧ discovery_api.delete 7 sample.db
      = Raise (HTTPException 404 "No discovery found with id: 7").
Proof.
  destruct (delete_discovery_effect 2 sample.db) as [_ Hok].
  destruct (delete_discovery_effect 7 sample.db) as [Hmissing _].
  eexists. split; [reflexivity|]. split.
  - apply (Hok true _ eq_refl).
  - apply (Hmissing eq_refl).
Defined.

(** ** The keys of the distance mapping *)

Section distance_keys.
Context {F : PyFloat} {G : PostGIS}.

Lemma km_fold_keys (rows : list (Z * float)) (acc : gmap Z float) (i : Z) :
  is_Some (foldl (fun acc distance =>
                    <[distance.1 := truediv distance.2 1000]> acc)
                 acc rows !! i)
  ↔ i ∈ rows.*1 ∨ is_Some (acc !! i).
Proof.
  revert acc. induction rows as [|[j d] rows IH]; intros acc; cbn.
  - split; [by right|]. intros [Hin|Hacc]; [by apply elem_of_nil in Hin|done].
  - rewrite IH, elem_of_cons.
    destruct (decide (j = i)) as [->|Hne].
    + rewrite lookup_insert_eq. split; [intros _; by left; left|].
      intros _. right. by eexists.
    + rewrite lookup_insert_ne by done. split.
      * intros [Hin|Hacc]; [left; by right|by right].
      * intros [[Heq|Hin]|Hacc]; [congruence|by left|by right].
Qed.

(** X13: the mapping the distance operation returns has exactly the ids of
    the stored discoveries as keys, whatever their state_id or kind; an id
    that is not stored is not a key. *)
Theorem distance_keys_are_all_ids (my_position : string) (db : Database)
    (result : gmap Z float) :
  discovery_api.distance my_position db = Ok result →
  ∀ i, is_Some (result !! i) ↔ i ∈ map models.di_id (discoveries db).
Proof.
  unfold discovery_api.distance, crud.distance_from_discoveries.
  destruct (ST_GeomFromText _) as [origin|]; [|done]. cbn [mbind result_bind].
  set (rows := map _ (discoveries db)).
  assert (Hids : rows.*1 = map models.di_id (discoveries db)).
  { unfold rows. by rewrite <- list_fmap_compose. }
  destruct (truthy_list rows); [|done]. intros [= <-] i.
  unfold discovery_api.km_dict. rewrite km_fold_keys, Hids, lookup_empty.
  split; [intros [Hin|[x Hx]]; done|by left].
Qed.

End distance_keys.

Lemma distance_keys_are_all_ids_witness :
  ∃ result : gmap Z (@float sample.pyfloat),
    @discovery_api.distance sample.pyfloat sample.postgis "12.0 41.0" sample.db
    = Ok result
    ∧ is_Some (result !! 2) ∧ result !! 4 = None.
Proof.
  eexists. split; [reflexivity|].
  pose proof (@distance_keys_are_all_ids sample.pyfloat sample.postgis
                "12.0 41.0" sample.db _ eq_refl) as Hkeys.
  split.
  - apply Hkeys. by apply (list_elem_of_lookup_2 _ 1%nat).
  - apply eq_None_not_Some. intros Hsome. apply Hkeys in Hsome.
    apply list_elem_of_In in Hsome. cbn in Hsome.
    repeat destruct Hsome as [Hsome|Hsome]; try discriminate Hsome; done.
Defined.

(** ** Tourist accounts *)

(** X14: after a sign-up that succeeded, signing in with the same email
    and password yields a token for the id the store assigned, when that
    id is not 0 (given that the hash accepts its own password and that the
    issued token validates to the claims it was made from); with that
    token [get_current_tourist] returns the new account when it was
    created with state_id 1, and fails with "This user has been
    deactivated." for any other state_id the sign-up let through. *)
Theorem signup_signin_current {B : Bcrypt} {J : Jwt} (salt : string)
    (assigned_id : Z) (tourist_user : schemas.TouristUserCreate)
    (db db' : Database) (ok : bool) :
  let claims := {| role := "Tourist"; user_id := assigned_id |} in
  tourist_api.register_me salt assigned_id tourist_user db = Ok (ok, db') →
  assigned_id ≠ 0 →
  encryption.check_password (schemas.password tourist_user)
    (encryption.hash_password salt (schemas.password tourist_user)) = true →
  is_jwt_valid (create_jwt claims) = Ok (Some claims) →
  tourist_api.signin (schemas.email tourist_user)
    (schemas.password tourist_user) db'
  = Ok {| access_token := create_jwt claims; token_type := "bearer" |}
  ∧ (schemas.state_id tourist_user = 1 →
     ∃ identity,
       tourist_api.get_current_tourist (create_jwt claims) db' = Ok identity
       ∧ schemas.tourist_id identity = assigned_id
       ∧ schemas.email (schemas.tourist_data identity)
         = schemas.email tourist_user
       ∧ schemas.state_id (schemas.tourist_data identity) = 1)
  ∧ (schemas.state_id tourist_user ≠ 1 →
     tourist_api.get_current_tourist (create_jwt claims) db'
     = Raise (HTTPException 401 "This user has been deactivated.")).
Proof.
  intros claims Hreg Hnonzero Hhash Hjwt.
  unfold tourist_api.register_me in Hreg.
  destruct (_ || _); [done|]. unfold crud.create_tourist_user in Hreg.
  cbn [models.tu_email] in Hreg.
  destruct (key_in_use models.tu_id assigned_id (tourist_users db))
    eqn:Huse; [done|].
  destruct (crud.email_taken _ _ _) eqn:Htaken; [done|].
  cbn [orb] in Hreg. injection Hreg as _ <-.
  apply key_in_use_false in Huse. rewrite Forall_forall in Huse.
  set (row := crud.with_tu_id assigned_id _).
  assert (Hemail : Forall (fun r => String.eqb (models.tu_email r)
                                      (schemas.email tourist_user) = false)
                          (tourist_users db)).
  { apply existsb_false_Forall in Htaken. rewrite Forall_forall in Htaken.
    apply Forall_forall. intros r Hr. specialize (Htaken r Hr).
    apply andb_false_iff in Htaken as [Hne|Hsame]; [done|].
    apply negb_false_iff, Z.eqb_eq in Hsame. by destruct (Huse r Hr). }
  assert (Hbyemail : crud.get_tourist_user_by_email
            (set_tourist_users db (tourist_users db ++ [row]))
            (schemas.email tourist_user) = Some row).
  { unfold crud.get_tourist_user_by_email.
    cbn [tourist_users set_tourist_users].
    rewrite find_snoc_absent by done. cbn. by rewrite String.eqb_refl. }
  assert (Hbyid : crud.get_tourist_user
            (set_tourist_users db (tourist_users db ++ [row])) assigned_id
            = Some row).
  { unfold crud.get_tourist_user. cbn [tourist_users set_tourist_users].
    rewrite find_snoc_absent; [cbn; by rewrite Z.eqb_refl|].
    apply Forall_forall. intros r Hr. apply Z.eqb_neq. by apply Huse. }
  split; [|split].
  - unfold tourist_api.signin, tourist_api.authenticate_tourist.
    rewrite Hbyemail. cbn [row crud.with_tu_id models.tu_password models.tu_id].
    rewrite Hhash. cbn [mbind result_bind]. unfold truthy_int.
    by rewrite (proj2 (Z.eqb_neq assigned_id 0)) by done.
  - intros Hstate. exists (tourist_api.to_schema row).
    unfold tourist_api.get_current_tourist. rewrite Hjwt.
    cbn [mbind result_bind claims role user_id]. rewrite Hbyid. cbn.
    rewrite Hstate. done.
  - intros Hstate. unfold tourist_api.get_current_tourist. rewrite Hjwt.
    cbn [mbind result_bind claims role user_id]. rewrite Hbyid. cbn.
    by rewrite (proj2 (Z.eqb_neq _ 1) Hstate).
Qed.

Lemma signup_signin_current_witness :
  ∃ db',
    @tourist_api.register_me sample.bcrypt "$" 1 (sample.signup 0) empty_db
    = Ok (true, db')
    ∧ @tourist_api.signin sample.bcrypt (sample.jwt_of 1)
        "ada@example.org" "pw" db'
      = Ok {| access_token := "Tourist"; token_type := "bearer" |}
    ∧ @tourist_api.get_current_tourist (sample.jwt_of 1) "Tourist" db'
      = Raise (HTTPException 401 "This user has been deactivated.").
Proof.
  eexists. split; [reflexivity|].
  destruct (@signup_signin_current sample.bcrypt (sample.jwt_of 1) "$" 1
              (sample.signup 0) empty_db _ true eq_refl
              ltac:(discriminate) eq_refl eq_refl)
    as (Hsignin & _ & Hdeactivated).
  split; [exact Hsignin|]. apply Hdeactivated. discriminate.
Defined.

(** X15: a tourist's password update with two identical passwords answers
    a notice and changes nothing, without checking the password; with
    different ones it fails with 403 unless the old password verifies; and
    when it answers the value of the update, the old password did verify,
    the stored row differs from the old one in its password only, which is
    the hash of the new one, and every other tourist reads as before. *)
Theorem update_my_password_effect {B : Bcrypt}
    (salt old_password new_password : string) (me : schemas.TouristUser)
    (db : Database) :
  (old_password = new_password →
   tourist_api.update_my_password salt old_password new_password me db
   = Ok (Identical "Identical input passwords.", db))
  ∧ (old_password ≠ new_password →
     tourist_api.verify_my_password old_password me = false →
     tourist_api.update_my_password salt old_password new_password me db
     = Raise (HTTPException 403 "Invalid Password."))
  ∧ (∀ ok db',
       tourist_api.update_my_password salt old_password new_password me db
       = Ok (Updated ok, db') →
       old_password ≠ new_password
       ∧ tourist_api.verify_my_password old_password me = true
       ∧ ∃ row,
           crud.get_tourist_user db (schemas.tourist_id me) = Some row
           ∧ crud.get_tourist_user db' (schemas.tourist_id me)
             = Some (crud.with_tu_password
                       (encryption.hash_password salt new_password) row)
           ∧ ∀ j, j ≠ schemas.tourist_id me →
                  crud.get_tourist_user db' j = crud.get_tourist_user db j).
Proof.
  unfold tourist_api.update_my_password. split; [|split].
  - intros ->. by rewrite String.eqb_refl.
  - intros Hne Hverify.
    by rewrite (proj2 (String.eqb_neq _ _) Hne), Hverify.
  - intros ok db'.
    destruct (String.eqb_spec old_password new_password) as [Heq|Hne];
      [done|].
    destruct (tourist_api.verify_my_password old_password me); [|done].
    destruct (crud.get_tourist_user db (schemas.tourist_id me))
      as [row|] eqn:Hrow; [|done].
    assert (Hid : models.tu_id row = schemas.tourist_id me).
    { apply find_some_elem in Hrow as [_ Heq]. by apply Z.eqb_eq. }
    unfold crud.update. destruct (crud.email_taken _ _ _); [done|].
    cbn [mbind result_bind]. intros [= _ <-].
    split; [done|]. split; [done|]. exists row. split; [done|].
    unfold crud.get_tourist_user. cbn [tourist_users set_tourist_users].
    rewrite <- Hid. split.
    + apply (find_merge_row models.tu_id
               (crud.with_tu_password _ row)).
    + intros j Hj.
      by apply (find_merge_row_other models.tu_id
                  (crud.with_tu_password _ row)).
Qed.

Lemma update_my_password_effect_witness :
  @tourist_api.update_my_password sample.bcrypt "$" "nope" "nope" sample.me
    sample.db
  = Ok (Identical "Identical input passwords.", sample.db)
  ∧ @tourist_api.update_my_password sample.bcrypt "$" "nope" "new" sample.me
      sample.db
    = Raise (HTTPException 403 "Invalid Password.")
  ∧ ∃ db',
      @tourist_api.update_my_password sample.bcrypt "$" "pw" "new" sample.me
        sample.db = Ok (Updated true, db')
      ∧ (models.tu_password <$> crud.get_tourist_user db' 5) = Some "$new".
Proof.
  destruct (@update_my_password_effect sample.bcrypt "$" "nope" "nope"
              sample.me sample.db) as (Hsame & _ & _).
  destruct (@update_my_password_effect sample.bcrypt "$" "nope" "new"
              sample.me sample.db) as (_ & Hwrong & _).
  destruct (@update_my_password_effect sample.bcrypt "$" "pw" "new"
              sample.me sample.db) as (_ & _ & Hdone).
  split; [exact (Hsame eq_refl)|].
  split; [apply Hwrong; [discriminate|reflexivity]|].
  eexists. split; [reflexivity|].
  destruct (Hdone true _ eq_refl) as (_ & _ & row & Hrow & Hnew & _).
  change (schemas.tourist_id sample.me) with 5 in Hnew, Hrow.
  rewrite Hnew. injection Hrow as <-. reflexivity.
Defined.

(** X16: a tourist's profile update that succeeds never changes the id or
    the password of the row, leaves its state_id as it was or sets it to 1
    or 2 and to nothing else, and leaves every other tourist reading as
    before; a new state_id outside 1..2 is refused before the store is
    read. *)
Theorem update_my_info_keeps
    (new_name new_surname new_email new_img_profile new_telephone : string)
    (new_state_id : option Z) (me : schemas.TouristUser) (db : Database) :
  (∀ s, new_state_id = Some s → s ≠ 1 → s ≠ 2 →
        tourist_api.update_my_info new_name new_surname new_email
          new_img_profile new_state_id new_telephone me db
        = Raise (RequestValidationError "new_state_id"))
  ∧ (∀ ok db',
       tourist_api.update_my_info new_name new_surname new_email
         new_img_profile new_state_id new_telephone me db = Ok (ok, db') →
       ∃ old new,
         crud.get_tourist_user db (schemas.tourist_id me) = Some old
         ∧ crud.get_tourist_user db' (schemas.tourist_id me) = Some new
         ∧ models.tu_id new = models.tu_id old
         ∧ models.tu_password new = models.tu_password old
         ∧ (models.tu_state_id new = models.tu_state_id old
            ∨ models.tu_state_id new = 1 ∨ models.tu_state_id new = 2)
         ∧ ∀ j, j ≠ schemas.tourist_id me →
                crud.get_tourist_user db' j = crud.get_tourist_user db j).
Proof.
  unfold tourist_api.update_my_info. split.
  - intros s -> H1 H2. cbn.
    destruct (Z.leb_spec 1 s), (Z.leb_spec s 2); cbn; try done. lia.
  - intros ok db'.
    destruct (tourist_api.valid_new_state_id new_state_id) eqn:Hvalid;
      [|done]. cbn [negb].
    destruct (crud.get_tourist_user db (schemas.tourist_id me))
      as [old|] eqn:Hold; [|done].
    assert (Hid : models.tu_id old = schemas.tourist_id me).
    { apply find_some_elem in Hold as [_ Heq]. by apply Z.eqb_eq. }
    unfold crud.update. destruct (crud.email_taken _ _ _); [done|].
    intros [= _ <-]. eexists old, _. split; [done|].
    unfold crud.get_tourist_user. cbn [tourist_users set_tourist_users].
    rewrite <- Hid. split; [|split; [|split; [|split]]].
    + apply (find_merge_row models.tu_id (tourist_api.merge_my_info _ _ _ _ _ _ _)).
    + done.
    + done.
    + cbn. destruct new_state_id as [s|]; [|by left].
      destruct (truthy_int s); [|by left]. cbn in Hvalid.
      apply andb_true_iff in Hvalid as [Hlo Hhi].
      apply Z.leb_le in Hlo, Hhi. right. lia.
    + intros j Hj.
      by apply (find_merge_row_other models.tu_id
                  (tourist_api.merge_my_info _ _ _ _ _ _ _)).
Qed.

Lemma update_my_info_keeps_witness :
  tourist_api.update_my_info "" "" "" "" (Some 0) "" sample.me sample.db
  = Raise (RequestValidationError "new_state_id")
  ∧ ∃ db',
      tourist_api.update_my_info "" "" "" "" (Some 2) "" sample.me sample.db
      = Ok (true, db')
      ∧ (models.tu_password <$> crud.get_tourist_user db' 5) = Some "$pw".
Proof.
  destruct (update_my_info_keeps "" "" "" "" "" (Some 0) sample.me sample.db)
    as [Hrefused _].
  destruct (update_my_info_keeps "" "" "" "" "" (Some 2) sample.me sample.db)
    as [_ Hkept].
  split; [apply (Hrefused 0 eq_refl); discriminate|].
  eexists. split; [reflexivity|].
  destruct (Hkept true _ eq_refl) as (old & new & Hold & Hnew & _ & Hpw & _).
  change (schemas.tourist_id sample.me) with 5 in Hnew, Hold.
  rewrite Hnew. cbn [fmap option_fmap option_map]. rewrite Hpw.
  injection Hold as <-. reflexivity.
Defined.

(** ** Likes seen by a tourist *)

Lemma get_likes_spec (db : Database) (t e : Z) :
  e ∈ crud.get_likes db t
  ↔ {| models.tourist_user_id := t; models.experience_id := e |}
    ∈ tourist_user_likes db.
Proof.
  unfold crud.get_likes. rewrite list_elem_of_fmap. split.
  - intros ([t' e'] & -> & Hin). apply list_elem_of_filter in Hin as [Ht Hin].
    cbn in Ht. by subst.
  - intros Hin. eexists. split; [|apply list_elem_of_filter; split; [|exact Hin]];
      done.
Qed.

Lemma get_my_likes_list_eq (db : Database) (me : schemas.TouristUser) :
  tourist_api.get_my_likes_list db me
  = crud.get_likes db (schemas.tourist_id me).
Proof.
  unfold tourist_api.get_my_likes_list.
  by destruct (crud.get_likes db (schemas.tourist_id me)).
Qed.

(** X17: [toggle_like] fails with 404 when the experience does not exist;
    for an existing one it always answers, never with a duplicate-key
    error, and its answer says where the experience now stands: after the
    answer true it is in the tourist's likes list, after the answer false
    it is not, and the answer is true exactly when it was not in the list
    before. *)
Theorem toggle_like_likes_list (experience_id : Z) (db : Database)
    (me : schemas.TouristUser) :
  (crud.get_experience db experience_id = None →
   tourist_api.toggle_like experience_id db me
   = Raise (HTTPException 404 "Experience not found."))
  ∧ (is_Some (crud.get_experience db experience_id) →
     ∃ answer db',
       tourist_api.toggle_like experience_id db me = Ok (Some answer, db')
       ∧ (answer = true
          ↔ experience_id ∉ tourist_api.get_my_likes_list db me)
       ∧ (experience_id ∈ tourist_api.get_my_likes_list db' me
          ↔ answer = true)).
Proof.
  unfold tourist_api.toggle_like. split; [by intros ->|]. intros [x ->].
  rewrite !get_my_likes_list_eq.
  set (like := {| models.tourist_user_id := schemas.tourist_id me;
                  models.experience_id := experience_id |}).
  destruct (get_like_spec db (schemas.tourist_id me) experience_id)
    as [Hpresent Habsent]. fold like in Hpresent, Habsent.
  destruct (decide (like ∈ tourist_user_likes db)) as [Hin|Hnot].
  - rewrite (Hpresent Hin). cbn. eexists false, _. split; [reflexivity|].
    rewrite ?get_my_likes_list_eq, !get_likes_spec. fold like.
    cbn [tourist_user_likes set_tourist_user_likes].
    split; [split; [done|by intros Hno]|].
    rewrite list_elem_of_filter. split; [by intros [Hne _]|done].
  - rewrite (Habsent Hnot). unfold crud.create_like. fold like.
    rewrite bool_decide_eq_false_2 by done. cbn.
    eexists true, _. split; [reflexivity|].
    rewrite ?get_my_likes_list_eq, !get_likes_spec. fold like.
    cbn [tourist_user_likes set_tourist_user_likes].
    split; [done|]. split; [done|]. intros _.
    apply elem_of_app. right. by apply list_elem_of_singleton.
Qed.

Lemma toggle_like_likes_list_witness :
  tourist_api.toggle_like 4 sample.db sample.me
  = Raise (HTTPException 404 "Experience not found.")
  ∧ ∃ db',
      tourist_api.toggle_like 2 sample.db sample.me = Ok (Some true, db')
      ∧ tourist_api.get_my_likes_list db' sample.me = [2].
Proof.
  destruct (toggle_like_likes_list 4 sample.db sample.me) as [Hmissing _].
  destruct (toggle_like_likes_list 2 sample.db sample.me) as [_ Hthere].
  split; [exact (Hmissing eq_refl)|].
  destruct (Hthere ltac:(by eexists)) as (answer & db' & Hok & _ & _).
  eexists. split; reflexivity.
Defined.

(** X18: a toggle changes the like-state of the one (tourist, experience)
    pair only: every other pair is liked after it exactly when it was
    before, the likes list of every other tourist is the same list, and the
    tourist, host, experience and discovery tables are untouched. *)
Theorem toggle_like_is_local (experience_id : Z) (db db' : Database)
    (me : schemas.TouristUser) (answer : option bool) :
  tourist_api.toggle_like experience_id db me = Ok (answer, db') →
  (∀ t e, (t, e) ≠ (schemas.tourist_id me, experience_id) →
          (e ∈ crud.get_likes db' t ↔ e ∈ crud.get_likes db t))
  ∧ (∀ other, schemas.tourist_id other ≠ schemas.tourist_id me →
              tourist_api.get_my_likes_list db' other
              = tourist_api.get_my_likes_list db other)
  ∧ tourist_users db' = tourist_users db
  ∧ host_users db' = host_users db
  ∧ experiences db' = experiences db
  ∧ discoveries db' = discoveries db.
Proof.
  unfold tourist_api.toggle_like.
  destruct (crud.get_experience db experience_id) as [existing|]; [|done].
  set (like := {| models.tourist_user_id := schemas.tourist_id me;
                  models.experience_id := experience_id |}).
  assert (Hother : ∀ t e, (t, e) ≠ (schemas.tourist_id me, experience_id) →
            {| models.tourist_user_id := t; models.experience_id := e |}
            ≠ like).
  { intros t e Hne [= -> ->]. done. }
  destruct (crud.get_like db (schemas.tourist_id me) experience_id)
    as [found|] eqn:Hfound.
  - assert (found = like) as ->.
    { destruct (decide (like ∈ tourist_user_likes db)) as [Hin|Hnot].
      - destruct (get_like_spec db (schemas.tourist_id me) experience_id)
          as [Hp _]. specialize (Hp Hin). fold like in Hp. congruence.
      - destruct (get_like_spec db (schemas.tourist_id me) experience_id)
          as [_ Ha]. specialize (Ha Hnot). congruence. }
    cbn. intros [= _ <-]. split; [|split; [|done]].
    + intros t e Hne. rewrite !get_likes_spec.
      cbn [tourist_user_likes set_tourist_user_likes].
      rewrite list_elem_of_filter. specialize (Hother t e Hne). tauto.
    + intros other Hne. rewrite !get_my_likes_list_eq. unfold crud.get_likes.
      cbn [tourist_user_likes set_tourist_user_likes]. f_equal.
      rewrite list_filter_filter. apply list_filter_iff. intros [t e]. cbn.
      split; [tauto|]. intros ->. split; [done|]. intros [= Ht _]. done.
  - unfold crud.create_like. fold like.
    destruct (bool_decide (like ∈ tourist_user_likes db)); [done|].
    cbn. intros [= _ <-]. split; [|split; [|done]].
    + intros t e Hne. rewrite !get_likes_spec.
      cbn [tourist_user_likes set_tourist_user_likes].
      rewrite elem_of_app, list_elem_of_singleton.
      specialize (Hother t e Hne). tauto.
    + intros other Hne. rewrite !get_my_likes_list_eq. unfold crud.get_likes.
      cbn [tourist_user_likes set_tourist_user_likes]. f_equal.
      rewrite filter_app. rewrite filter_cons_False by (cbn; congruence).
      by rewrite filter_nil, app_nil_r.
Qed.

Lemma toggle_like_is_local_witness :
  ∃ db',
    tourist_api.toggle_like 2 sample.db sample.me = Ok (Some true, db')
    ∧ experiences db' = experiences sample.db
    ∧ (3 ∈ crud.get_likes db' 5 ↔ 3 ∈ crud.get_likes sample.db 5).
Proof.
  eexists. split; [reflexivity|].
  destruct (toggle_like_is_local 2 sample.db _ sample.me (Some true) eq_refl)
    as (Hpairs & _ & _ & _ & Hexp & _).
  split; [exact Hexp|]. apply Hpairs. discriminate.
Defined.

(** ** The role evaluators *)

(** X19: the any-of-three evaluator grants a credential exactly when the
    admin-only or the host-or-tourist evaluator does, and these two never
    both grant; what it returns is the role claim, one of the three roles;
    a falsy payload makes all three fail with "Incorrect token", and an
    exception of the validator passes through all three. *)
Theorem role_evaluators_relate {J : Jwt} (token : string) :
  ((∃ r, authentication_data.get_tourist_host_admin_priviledge token = Ok r)
   ↔ authentication_data.get_admin_priviledge token = Ok true
     ∨ authentication_data.get_tourist_host_priviledge token = Ok true)
  ∧ ¬ (authentication_data.get_admin_priviledge token = Ok true
       ∧ authentication_data.get_tourist_host_priviledge token = Ok true)
  ∧ (∀ r, authentication_data.get_tourist_host_admin_priviledge token = Ok r →
          r ∈ authentication_data.roles
          ∧ ∃ p, is_jwt_valid token = Ok (Some p) ∧ role p = r)
  ∧ (is_jwt_valid token = Ok None →
     authentication_data.get_admin_priviledge token
     = Raise authentication_data.incorrect_token
     ∧ authentication_data.get_tourist_host_priviledge token
       = Raise authentication_data.incorrect_token
     ∧ authentication_data.get_tourist_host_admin_priviledge token
       = Raise authentication_data.incorrect_token)
  ∧ (∀ e, is_jwt_valid token = Raise e →
          authentication_data.get_admin_priviledge token = Raise e
          ∧ authentication_data.get_tourist_host_priviledge token = Raise e
          ∧ authentication_data.get_tourist_host_admin_priviledge token
            = Raise e).
Proof.
  unfold authentication_data.get_tourist_host_admin_priviledge,
    authentication_data.get_admin_priviledge,
    authentication_data.get_tourist_host_priviledge.
  destruct (is_jwt_valid token) as [[p|]|e]; cbn.
  - destruct (String.eqb_spec (role p) "Admin") as [Ha|Ha];
      destruct (String.eqb_spec (role p) "Host") as [Hh|Hh];
      destruct (String.eqb_spec (role p) "Tourist") as [Ht|Ht];
      cbn; try congruence.
    all: split; [split; [intros [r Hr]; try done; tauto
                        |intros [?|?]; try done; by eexists]|].
    all: split; [by intros [? ?]|].
    all: split; [|split; [done|by intros ? [=]]].
    all: intros r [= <-]; (split; [|by exists p]).
    all: rewrite ?Ha, ?Hh, ?Ht; apply list_elem_of_In; cbn; tauto.
  - split; [split; [by intros [r Hr]|by intros [?|?]]|].
    split; [by intros [? ?]|]. split; [done|]. split; [done|by intros ? [=]].
  - split; [split; [by intros [r Hr]|by intros [?|?]]|].
    split; [by intros [? ?]|]. split; [done|]. split; [done|].
    by intros ? [= <-].
Qed.

(** X20: a credential that [get_current_tourist] resolves to an identity
    is an active tourist's: the state_id of the identity is 1, the
    host-or-tourist and any-of-three evaluators grant it, and the
    admin-only evaluator and [get_current_host] refuse it with
    "Unauthorized user."; the same holds for [get_current_host] with the
    roles exchanged. *)
Theorem current_user_is_exclusive {J : Jwt} (token : string) (db : Database) :
  (∀ identity,
     tourist_api.get_current_tourist token db = Ok identity →
     schemas.state_id (schemas.tourist_data identity) = 1
     ∧ authentication_data.get_tourist_host_priviledge token = Ok true
     ∧ authentication_data.get_tourist_host_admin_priviledge token
       = Ok "Tourist"
     ∧ authentication_data.get_admin_priviledge token
       = Raise authentication_data.unauthorized_user
     ∧ host_api.get_current_host token db
       = Raise authentication_data.unauthorized_user)
  ∧ (∀ identity,
       host_api.get_current_host token db = Ok identity →
       schemas.h_state_id (schemas.host_data identity) = 1
       ∧ authentication_data.get_tourist_host_priviledge token = Ok true
       ∧ authentication_data.get_tourist_host_admin_priviledge token
         = Ok "Host"
       ∧ authentication_data.get_admin_priviledge token
         = Raise authentication_data.unauthorized_user
       ∧ tourist_api.get_current_tourist token db
         = Raise authentication_data.unauthorized_user).
Proof.
  unfold tourist_api.get_current_tourist, host_api.get_current_host,
    authentication_data.get_tourist_host_admin_priviledge,
    authentication_data.get_admin_priviledge,
    authentication_data.get_tourist_host_priviledge.
  destruct (is_jwt_valid token) as [[p|]|e]; cbn; [|by split|by split].
  split; intros identity.
  - destruct (String.eqb_spec (role p) "Tourist") as [Ht|Ht]; [|done].
    rewrite Ht. cbn.
    destruct (crud.get_tourist_user db (user_id p)) as [u|]; [|done].
    destruct (Z.eqb_spec (models.tu_state_id u) 1) as [H1|H1]; [|done].
    by intros [= <-].
  - destruct (String.eqb_spec (role p) "Host") as [Hh|Hh]; [|done].
    rewrite Hh. cbn.
    destruct (crud.get_host_user db (user_id p)) as [u|]; [|done].
    destruct (Z.eqb_spec (models.hu_state_id u) 1) as [H1|H1]; [|done].
    by intros [= <-].
Qed.

Lemma current_user_is_exclusive_witness :
  ∃ identity,
    @tourist_api.get_current_tourist (sample.jwt_of 5) "Tourist" sample.db
    = Ok identity
    ∧ @host_api.get_current_host (sample.jwt_of 5) "Tourist" sample.db
      = Raise authentication_data.unauthorized_user.
Proof.
  eexists. split; [reflexivity|].
  apply (proj1 (@current_user_is_exclusive (sample.jwt_of 5) "Tourist"
                  sample.db) _ eq_refl).
Defined.

(** ** Updating an experience *)

Lemma merge_row_keys {A} (key : A → Z) (x : A) (rows : list A) :
  key x ∈ map key rows →
  map key (crud.merge_row key x rows) = map key rows.
Proof.
  induction rows as [|r rows IH]; cbn; [by intros Hin; apply elem_of_nil in Hin|].
  intros Hin. destruct (Z.eqb_spec (key r) (key x)) as [Heq|Hne]; cbn.
  - by rewrite Heq.
  - apply elem_of_cons in Hin as [Hx|Hin]; [congruence|]. by rewrite IH.
Qed.

Lemma find_key_unique {A} (key : A → Z) (rows : list A) (x y : A) :
  NoDup (map key rows) →
  List.find (fun r => key r =? key y) rows = Some x →
  y ∈ rows → y = x.
Proof.
  induction rows as [|r rows IH]; cbn; [done|].
  intros Hnd Hfind Hy. apply NoDup_cons in Hnd as [Hr Hnd].
  destruct (Z.eqb_spec (key r) (key y)) as [Heq|Hne].
  - injection Hfind as <-. apply elem_of_cons in Hy as [->|Hy]; [done|].
    exfalso. apply Hr. rewrite Heq. apply list_elem_of_fmap. by exists y.
  - apply elem_of_cons in Hy as [->|Hy]; [done|]. by apply IH.
Qed.

Section experience_update.
Context {F : PyFloat} {G : PostGIS}.

Lemma update_experience_stores (experience_id : Z)
    (experience_data : schemas.ExperienceBase) (db db' : Database)
    (ok : bool) :
  experiences_api.update experience_id experience_data db = Ok (ok, db') →
  ∃ old,
    crud.get_experience db experience_id = Some old
    ∧ crud.get_experience db' experience_id
      = Some (experiences_api.merge_experience old experience_data)
    ∧ map models.ex_id (experiences db') = map models.ex_id (experiences db)
    ∧ ∀ j, j ≠ experience_id →
           crud.get_experience db' j = crud.get_experience db j.
Proof.
  unfold experiences_api.update.
  destruct (crud.get_experience db experience_id) as [old|] eqn:Hold; [|done].
  pose proof Hold as Hfound. apply find_some_elem in Hfound as [Hin Hid].
  apply Z.eqb_eq in Hid.
  unfold crud.update_dirty, crud.flush. intros [= _ <-]. exists old.
  set (merged := experiences_api.merge_experience old experience_data).
  assert (Hmid : models.ex_id merged = experience_id) by done.
  split; [done|]. unfold crud.get_experience.
  cbn [experiences set_experiences]. repeat split.
  - rewrite <- Hmid. apply (find_merge_row models.ex_id merged).
  - apply merge_row_keys. rewrite Hmid, <- Hid.
    apply list_elem_of_fmap. by exists old.
  - intros j Hj. apply (find_merge_row_other models.ex_id merged).
    by rewrite Hmid.
Qed.

(** X21: updating an experience that does not exist fails with 404; an
    update that succeeds stores under the same id the old row with every
    truthy payload field written over it, always takes the payload's
    duration, takes any non-zero state_id of the payload (no range is
    checked, unlike at creation), keeps the ids of the table, and leaves
    every other experience reading as before. *)
Theorem update_experience_effect (experience_id : Z)
    (experience_data : schemas.ExperienceBase) (db : Database) :
  (crud.get_experience db experience_id = None →
   experiences_api.update experience_id experience_data db
   = Raise (HTTPException 404 "Experience not found"))
  ∧ (∀ ok db',
       experiences_api.update experience_id experience_data db
       = Ok (ok, db') →
       ∃ old,
         crud.get_experience db experience_id = Some old
         ∧ crud.get_experience db' experience_id
           = Some (experiences_api.merge_experience old experience_data)
         ∧ models.ex_duration
             (experiences_api.merge_experience old experience_data)
           = schemas.e_duration experience_data
         ∧ (schemas.e_state_id experience_data ≠ 0 →
            models.ex_state_id
              (experiences_api.merge_experience old experience_data)
            = schemas.e_state_id experience_data)
         ∧ (schemas.e_state_id experience_data = 0 →
            models.ex_state_id
              (experiences_api.merge_experience old experience_data)
            = models.ex_state_id old)
         ∧ map models.ex_id (experiences db')
           = map models.ex_id (experiences db)
         ∧ ∀ j, j ≠ experience_id →
                crud.get_experience db' j = crud.get_experience db j).
Proof.
  split; [unfold experiences_api.update; by intros ->|]. intros ok db' Hupdate.
  destruct (update_experience_stores _ _ _ _ _ Hupdate)
    as (old & Hold & Hnew & Hkeys & Hothers).
  exists old. split; [done|]. split; [done|]. split; [done|].
  split; [|split; [|by split]].
  - intros Hs. cbn. unfold truthy_int.
    by rewrite (proj2 (Z.eqb_neq _ 0) Hs).
  - intros Hs. cbn. by rewrite Hs.
Qed.

(** X22: once an update has given an experience a state_id other than 1,
    and ids are unique, no list query and no page of the list endpoint
    holds that id any more, for any cursor and limit, while the single
    read still answers it. *)
Theorem updated_state_hides_from_list (experience_id : Z)
    (experience_data : schemas.ExperienceBase) (db db' : Database)
    (ok : bool) :
  NoDup (map models.ex_id (experiences db)) →
  0 < experience_id →
  schemas.e_state_id experience_data ≠ 0 →
  schemas.e_state_id experience_data ≠ 1 →
  experiences_api.update experience_id experience_data db = Ok (ok, db') →
  (∀ cursor limit rows,
     crud.get_experiences db' cursor limit = Ok rows →
     experience_id ∉ map models.ex_id rows)
  ∧ (∀ cursor limit page,
       experiences_api.get_experiences cursor limit db' = Ok page →
       experience_id ∉ map schemas.e_id (schemas.er_items page))
  ∧ ∃ read,
      experiences_api.get_experience experience_id db' = Ok read
      ∧ schemas.e_state_id (schemas.e_base read)
        = schemas.e_state_id experience_data.
Proof.
  intros Hnd Hpos Hs0 Hs1 Hupdate.
  destruct (update_experience_stores _ _ _ _ _ Hupdate)
    as (old & Hold & Hnew & Hkeys & _).
  set (merged := experiences_api.merge_experience old experience_data) in *.
  assert (Hstate : models.ex_state_id merged
                   = schemas.e_state_id experience_data).
  { cbn. unfold truthy_int. by rewrite (proj2 (Z.eqb_neq _ 0) Hs0). }
  assert (Hnd' : NoDup (map models.ex_id (experiences db')))
    by by rewrite Hkeys.
  assert (Hrows : ∀ cursor limit rows,
            crud.get_experiences db' cursor limit = Ok rows →
            Forall (fun e => models.ex_id e ≠ experience_id) rows).
  { intros cursor limit rows. unfold crud.get_experiences.
    apply offset_limit_Forall. rewrite order_by_perm.
    apply Forall_forall. intros e He.
    apply list_elem_of_filter in He as [He1 Hin]. intros Hid.
    assert (e = merged) as ->.
    { apply (find_key_unique models.ex_id (experiences db')); [done| |done].
      by rewrite Hid. }
    congruence. }
  split; [|split].
  - intros cursor limit rows Hq Hin.
    apply list_elem_of_fmap in Hin as (e & He & Hin).
    specialize (Hrows cursor limit rows Hq). rewrite Forall_forall in Hrows.
    by apply (Hrows e Hin).
  - intros cursor limit page. unfold experiences_api.get_experiences.
    destruct (negb (valid_cursor cursor)); [done|].
    destruct (negb (valid_limit limit)); [done|].
    destruct (crud.get_experiences db' cursor limit) as [rows|] eqn:Hq;
      cbn; [|done].
    destruct (truthy_list rows); [|done]. intros [= <-]. cbn.
    intros Hin. apply list_elem_of_fmap in Hin as (x & Hx & Hin).
    apply list_elem_of_fmap in Hin as (e & -> & Hin).
    pose proof (slice_to_Forall _ rows limit (Hrows cursor limit rows Hq))
      as Hslice.
    rewrite Forall_forall in Hslice. by apply (Hslice e Hin).
  - unfold experiences_api.get_experience, experiences_api.valid_id.
    rewrite (proj2 (Z.ltb_lt 0 experience_id) Hpos). cbn [negb].
    rewrite Hnew. eexists. split; [reflexivity|]. exact Hstate.
Qed.

End experience_update.

Lemma update_experience_effect_witness :
  ∃ db',
    @experiences_api.update sample.pyfloat sample.postgis 3
      (sample.new_experience 7) sample.db = Ok (true, db')
    ∧ (models.ex_state_id <$> crud.get_experience db' 3) = Some 7
    ∧ @experiences_api.update sample.pyfloat sample.postgis 4
        (sample.new_experience 7) sample.db
      = Raise (HTTPException 404 "Experience not found").
Proof.
  destruct (@update_experience_effect sample.pyfloat sample.postgis 3
              (sample.new_experience 7) sample.db) as [_ Hok].
  destruct (@update_experience_effect sample.pyfloat sample.postgis 4
              (sample.new_experience 7) sample.db) as [Hmissing _].
  eexists. split; [reflexivity|]. split; [|exact (Hmissing eq_refl)].
  destruct (Hok true _ eq_refl) as (old & _ & Hnew & _).
  rewrite Hnew. reflexivity.
Defined.

Lemma updated_state_hides_from_list_witness :
  ∃ db' page,
    @experiences_api.update sample.pyfloat sample.postgis 3
      (sample.new_experience 2) sample.db = Ok (true, db')
    ∧ experiences_api.get_experiences None 5 db' = Ok page
    ∧ 3 ∉ map schemas.e_id (schemas.er_items page).
Proof.
  destruct (@updated_state_hides_from_list sample.pyfloat sample.postgis 3
              (sample.new_experience 2) sample.db
              (set_experiences sample.db
                 (crud.merge_row models.ex_id
                    (experiences_api.merge_experience (sample.experience 3 1)
                       (sample.new_experience 2))
                    (experiences sample.db)))
              true)
    as (_ & Hpages & _).
  - apply (bool_decide_unpack _). reflexivity.
  - reflexivity.
  - discriminate.
  - discriminate.
  - reflexivity.
  - eexists _, _. split; [reflexivity|]. split; [reflexivity|].
    apply (Hpages None 5). reflexivity.
Defined.
